(** * Constellation viewer: coordinate pipeline and chart composition

    A shallow embedding of [sky_calculator.py], [sky_renderer.py] and the
    parts of [star_catalog.py] they read.  Python floats are read as ideal
    real numbers ([R]); NumPy's elementary functions are the corresponding
    functions of the Standard Library's reals.  The astropy coordinate
    transformation, the clock and the string formatting routines are library
    code and enter as section variables.  A matplotlib axes object is the
    ordered list of the artists added to it. *)

From Stdlib Require Import Reals Lra Lia List ZArith String Bool.
Import ListNotations.

Open Scope R_scope.

(** ** NumPy and Python builtins *)

Module Np.

(** [np.radians]: degrees to radians. *)
Definition radians (x : R) : R := x * (PI / 180).

(** [np.linspace(start, stop, num)] with the default [endpoint=True]:
    [num] samples, the first at [start] and (for [num > 1]) the last at
    [stop], the step being [(stop - start) / (num - 1)]. *)
Definition linspace (start stop : R) (num : nat) : list R :=
  match num with
  | O => []
  | S O => [start]
  | S (S _ as div) =>
      let step := (stop - start) / INR div in
      map (fun i => if Nat.eqb i div then stop else INR i * step + start)
          (seq 0 num)
  end.

End Np.

(** Python's two-argument [min] and [max] return their first argument unless
    the second is strictly smaller (resp. strictly larger). *)
Definition py_min (a b : R) : R := if Rlt_dec b a then b else a.
Definition py_max (a b : R) : R := if Rlt_dec a b then b else a.

(** ** Plot-plane points *)

Definition norm2 (p : R * R) : R := fst p * fst p + snd p * snd p.

(** ** sky_calculator.py *)

Record SkyCalculator := mkSkyCalculator {
  latitude : R;
  longitude : R;
  elevation : R
}.

(** [SkyCalculator.__init__], elevation defaulting to 0. *)
Definition SkyCalculator_init (lat lon : R) (elev : option R) : SkyCalculator :=
  {| latitude := lat;
     longitude := lon;
     elevation := match elev with Some e => e | None => 0 end |}.

(** [SkyCalculator.project_to_stereographic]. *)
Definition project_to_stereographic (self : SkyCalculator)
    (altitude azimuth : R) : R * R :=
  let alt_rad := Np.radians altitude in
  let az_rad := Np.radians azimuth in
  let zenith_distance := PI / 2 - alt_rad in
  let r := tan (zenith_distance / 2) in
  let x := r * sin az_rad in
  let y := r * cos az_rad in
  (x, y).

(** [SkyCalculator.get_cardinal_directions]: an insertion-ordered dict. *)
Definition get_cardinal_directions (self : SkyCalculator) : list (string * R) :=
  [("North"%string, 0); ("East"%string, 90);
   ("South"%string, 180); ("West"%string, 270)].

(** [SkyCalculator.get_horizon_circle]: the pair [(x_coords, y_coords)]. *)
Definition get_horizon_circle (self : SkyCalculator) (num_points : nat)
    : list R * list R :=
  let azimuths := Np.linspace 0 360 num_points in
  fold_left
    (fun (acc : list R * list R) az =>
       let '(x, y) := project_to_stereographic self 0 az in
       (fst acc ++ [x], snd acc ++ [y]))
    azimuths ([], []).

(** ** Python dictionaries

    A [dict] is an insertion-ordered association list whose keys are pairwise
    distinct ([NoDup] of the keys is the well-formedness of a dictionary).
    [d[k] = v] overwrites the value in place when [k] is present and appends
    a new item otherwise; [d.items()] is the list itself. *)

Section Dict.
Context {K V : Type} (eqb : K -> K -> bool).

Fixpoint dict_get (d : list (K * V)) (k : K) : option V :=
  match d with
  | [] => None
  | (k', v) :: d' => if eqb k k' then Some v else dict_get d' k
  end.

(** [k in d] *)
Definition dict_mem (d : list (K * V)) (k : K) : bool :=
  match dict_get d k with Some _ => true | None => false end.

Fixpoint dict_set (d : list (K * V)) (k : K) (v : V) : list (K * V) :=
  match d with
  | [] => [(k, v)]
  | (k', v') :: d' =>
      if eqb k k' then (k', v) :: d' else (k', v') :: dict_set d' k v
  end.

Definition keys (d : list (K * V)) : list K := map fst d.
End Dict.

(** ** star_catalog.py *)

(** A catalog star record: ['ra'] and ['dec'] are required, ['magnitude'] and
    ['hip_id'] may be absent. *)
Record StarData := mkStarData {
  sd_ra : R;
  sd_dec : R;
  sd_magnitude : option R;
  sd_hip_id : option Z
}.

(** A constellation record; ['lines'] is a list of two-element id lists. *)
Record Constellation := mkConstellation {
  lines : option (list (Z * Z))
}.

Record StarCatalog := mkStarCatalog {
  stars : list (Z * StarData);
  constellations : list (string * Constellation)
}.

Definition get_star (self : StarCatalog) (hip_id : Z) : option StarData :=
  dict_get Z.eqb (stars self) hip_id.

(** [self.constellations.get(name, {}).get('lines', [])] *)
Definition get_constellation_lines (self : StarCatalog) (constellation_name : string)
    : list (Z * Z) :=
  match dict_get String.eqb (constellations self) constellation_name with
  | Some c => match lines c with Some l => l | None => [] end
  | None => []
  end.

Definition get_all_stars (self : StarCatalog) : list (Z * StarData) := stars self.

Definition get_all_constellations (self : StarCatalog) : list string :=
  keys (constellations self).

(** [StarCatalog.load_constellation_data]: the built-in line table. *)
Definition load_constellation_data : list (string * Constellation) :=
  [ ("Ursa Major"%string,
      mkConstellation (Some
        [ (50801, 53910); (53910, 58001); (58001, 59774); (59774, 62956);
          (62956, 65378); (65378, 67301); (59774, 54061) ]%Z));
    ("Orion"%string,
      mkConstellation (Some
        [ (25336, 25930); (27989, 28716); (25930, 26207); (26207, 25336);
          (26207, 27989) ]%Z));
    ("Cassiopeia"%string,
      mkConstellation (Some
        [ (3179, 6686); (6686, 11415); (11415, 14404); (14404, 21609) ]%Z)) ].

(** ** Star positions computed by the calculator *)

Record StarPosition := mkStarPosition {
  ra : R;
  dec : R;
  altitude : R;
  azimuth : R;
  magnitude : R;
  visible : bool
}.

(** The Python comparison [a > b] on floats. *)
Definition Rgtb (a b : R) : bool := if Rgt_dec a b then true else false.

Section Calculator.
(** [datetime] values, and astropy's ICRS to AltAz transformation for an
    observer at (latitude, longitude, height) at an instant, applied to
    (ra, dec), all in degrees; it yields (altitude, azimuth). *)
Context {Instant : Type}.
Variable transform_to_altaz : R -> R -> R -> Instant -> R -> R -> R * R.

(** [clock] is what [datetime.now(timezone.utc)] returns when called. *)
Definition time_or_now (time : option Instant) (clock : Instant) : Instant :=
  match time with Some t => t | None => clock end.

(** [SkyCalculator.celestial_to_horizontal] *)
Definition celestial_to_horizontal (self : SkyCalculator) (clock : Instant)
    (ra dec : R) (time : option Instant) : R * R :=
  let time := time_or_now time clock in
  transform_to_altaz (latitude self) (longitude self) (elevation self)
    time ra dec.

(** [SkyCalculator.is_visible] *)
Definition is_visible (self : SkyCalculator) (clock : Instant)
    (ra dec : R) (time : option Instant) (min_altitude : R) : bool :=
  let '(altitude, azimuth) := celestial_to_horizontal self clock ra dec time in
  Rgtb altitude min_altitude.

(** The item built for one star in the loop of [calculate_star_positions]. *)
Definition star_position (self : SkyCalculator) (clock : Instant)
    (time : Instant) (star_data : StarData) : StarPosition :=
  let ra := sd_ra star_data in
  let dec := sd_dec star_data in
  let '(altitude, azimuth) :=
    celestial_to_horizontal self clock ra dec (Some time) in
  {| ra := ra;
     dec := dec;
     altitude := altitude;
     azimuth := azimuth;
     magnitude := match sd_magnitude star_data with Some m => m | None => 5 end;
     visible := Rgtb altitude 0 |}.

(** [SkyCalculator.calculate_star_positions] *)
Definition calculate_star_positions (self : SkyCalculator) (clock : Instant)
    (stars : list (Z * StarData)) (time : option Instant)
    : list (Z * StarPosition) :=
  let time := time_or_now time clock in
  fold_left
    (fun star_positions '(star_id, star_data) =>
       dict_set Z.eqb star_positions star_id
         (star_position self clock time star_data))
    stars [].
End Calculator.

(** ** sky_renderer.py *)

(** The artists added to a matplotlib axes object, with the arguments the
    renderer passes. *)
Inductive Artist :=
| CirclePatch (center : R * R) (radius : R) (fill : bool) (edgecolor : string)
    (linewidth : R) (linestyle : option string) (alpha : option R)
| TextArtist (x y : R) (s : string) (ha va color : string) (fontsize : R)
    (fontweight : option string)
| ScatterPoint (x y s : R) (c marker : string) (alpha : R)
    (edgecolors : option string)
| PlotLine (xdata ydata : list R) (color : string) (linewidth alpha : R).

Record Axes := mkAxes {
  xlim : R * R;
  ylim : R * R;
  aspect : string;
  ax_facecolor : string;
  artists : list Artist
}.

Record Figure := mkFigure {
  figsize : R * R;
  fig_dpi : R;
  fig_facecolor : string
}.

(** The call [plt.savefig(save_path, dpi=..., bbox_inches='tight', facecolor=...)]. *)
Record SaveFig := mkSaveFig {
  save_path_arg : string;
  save_dpi : R;
  save_facecolor : string
}.

Definition add_artist (ax : Axes) (a : Artist) : Axes :=
  {| xlim := xlim ax; ylim := ylim ax; aspect := aspect ax;
     ax_facecolor := ax_facecolor ax; artists := artists ax ++ [a] |}.

Record Colors := mkColors {
  background : string;
  horizon : string;
  stars_color : string;
  constellation_lines : string;
  cardinal_text : string;
  altitude_circles : string
}.

Record StarSizes := mkStarSizes {
  min_size : R;
  max_size : R;
  magnitude_range : R
}.

Record SkyRenderer := mkSkyRenderer {
  width : R;
  height : R;
  dpi : R;
  colors : Colors;
  star_sizes : StarSizes
}.

(** [SkyRenderer.__init__] *)
Definition SkyRenderer_init (width height dpi : R) : SkyRenderer :=
  {| width := width;
     height := height;
     dpi := dpi;
     colors := {| background := "#000011";
                  horizon := "#444444";
                  stars_color := "#ffffff";
                  constellation_lines := "#888888";
                  cardinal_text := "#cccccc";
                  altitude_circles := "#333333" |};
     star_sizes := {| min_size := 1; max_size := 8; magnitude_range := 6 |} |}.

(** [SkyRenderer.create_figure] *)
Definition create_figure (self : SkyRenderer) : Figure * Axes :=
  ({| figsize := (width self, height self);
      fig_dpi := dpi self;
      fig_facecolor := background (colors self) |},
   {| xlim := (-2, 2);
      ylim := (-2, 2);
      aspect := "equal";
      ax_facecolor := background (colors self);
      artists := [] |}).

(** [SkyRenderer.project_star_position] *)
Definition project_star_position (self : SkyRenderer) (altitude azimuth : R)
    : R * R :=
  let alt_rad := Np.radians altitude in
  let az_rad := Np.radians azimuth in
  let zenith_distance := PI / 2 - alt_rad in
  let r := tan (zenith_distance / 2) in
  let x := r * sin az_rad in
  let y := r * cos az_rad in
  (x, y).

(** [SkyRenderer.calculate_star_size] *)
Definition calculate_star_size (self : SkyRenderer) (magnitude : R) : R :=
  let mag := py_max 0 (py_min magnitude (magnitude_range (star_sizes self))) in
  let size_range := max_size (star_sizes self) - min_size (star_sizes self) in
  let size :=
    max_size (star_sizes self)
    - (mag / magnitude_range (star_sizes self)) * size_range in
  size.

(** [SkyRenderer.draw_horizon_and_grid] *)
Definition draw_horizon_and_grid (self : SkyRenderer) (ax : Axes)
    (sky_calc : SkyCalculator) : Axes :=
  let horizon_circle :=
    CirclePatch (0, 0) 1 false (horizon (colors self)) 2 None None in
  let ax := add_artist ax horizon_circle in
  let ax :=
    fold_left
      (fun ax alt =>
         let alt_rad := Np.radians alt in
         let zenith_distance := PI / 2 - alt_rad in
         let r := tan (zenith_distance / 2) in
         if Rlt_dec r 2 then
           add_artist ax
             (CirclePatch (0, 0) r false (altitude_circles (colors self)) 1
                (Some "--"%string) (Some (5 / 10)))
         else ax)
      [30; 60] ax in
  let cardinal_dirs := get_cardinal_directions sky_calc in
  fold_left
    (fun ax '(direction, azimuth) =>
       let '(x, y) := project_to_stereographic sky_calc 0 azimuth in
       let x := x * (11 / 10) in
       let y := y * (11 / 10) in
       add_artist ax
         (TextArtist x y direction "center" "center" (cardinal_text (colors self))
            12 (Some "bold"%string)))
    cardinal_dirs ax.

(** The body of the loop of [SkyRenderer.draw_stars] for one item. *)
Definition draw_star (self : SkyRenderer) (ax : Axes)
    (item : Z * StarPosition) : Axes :=
  let '(star_id, star_data) := item in
  if negb (visible star_data) then ax
  else
    let '(x, y) :=
      project_star_position self (altitude star_data) (azimuth star_data) in
    if Rgtb (x * x + y * y) 4 then ax
    else
      let size := calculate_star_size self (magnitude star_data) in
      add_artist ax
        (ScatterPoint x y (size * size) (stars_color (colors self)) "*"
           (9 / 10) (Some "none"%string)).

(** [SkyRenderer.draw_stars] *)
Definition draw_stars (self : SkyRenderer) (ax : Axes)
    (star_positions : list (Z * StarPosition)) : Axes :=
  fold_left (draw_star self) star_positions ax.

(** The body of the inner loop of [SkyRenderer.draw_constellation_lines]. *)
Definition draw_line (self : SkyRenderer)
    (star_positions : list (Z * StarPosition)) (ax : Axes) (line : Z * Z)
    : Axes :=
  let '(star1_id, star2_id) := line in
  match dict_get Z.eqb star_positions star1_id,
        dict_get Z.eqb star_positions star2_id with
  | Some star1, Some star2 =>
      if visible star1 && visible star2 then
        let '(x1, y1) :=
          project_star_position self (altitude star1) (azimuth star1) in
        let '(x2, y2) :=
          project_star_position self (altitude star2) (azimuth star2) in
        add_artist ax
          (PlotLine [x1; x2] [y1; y2] (constellation_lines (colors self)) 1
             (7 / 10))
      else ax
  | _, _ => ax
  end.

(** [SkyRenderer.draw_constellation_lines] *)
Definition draw_constellation_lines (self : SkyRenderer) (ax : Axes)
    (star_positions : list (Z * StarPosition)) (catalog : StarCatalog) : Axes :=
  fold_left
    (fun ax constellation_name =>
       let lines := get_constellation_lines catalog constellation_name in
       fold_left (draw_line self star_positions) lines ax)
    (get_all_constellations catalog) ax.

Definition newline : string := String (Ascii.ascii_of_nat 10) EmptyString.

(** The degree sign, as its two UTF-8 bytes. *)
Definition degree_sign : string :=
  String (Ascii.ascii_of_nat 194) (String (Ascii.ascii_of_nat 176) EmptyString).

(** Truthiness of an optional string argument: [None] and the empty string
    are false. *)
Definition truthy (s : option string) : bool :=
  match s with
  | Some EmptyString | None => false
  | Some _ => true
  end.

Section Renderer.
Context {Instant : Type}.
Variable transform_to_altaz : R -> R -> R -> Instant -> R -> R -> R * R.
(** [time.strftime(fmt)] and the float format [f"{x:.2f}"]. *)
Variable strftime : Instant -> string -> string.
Variable format_2f : R -> string.

(** [SkyRenderer.add_title_and_info] *)
Definition add_title_and_info (self : SkyRenderer) (ax : Axes)
    (latitude longitude : R) (time : Instant) (city_name : option string)
    : Axes :=
  let time_str := strftime time "%Y-%m-%d %H:%M UTC" in
  let location_str :=
    ("Lat: " ++ format_2f latitude ++ degree_sign ++ ", Lon: "
       ++ format_2f longitude ++ degree_sign)%string in
  let location_str :=
    match city_name with
    | Some name =>
        if truthy city_name
        then (name ++ " (" ++ location_str ++ ")")%string
        else location_str
    | None => location_str
    end in
  let title :=
    ("Night Sky View" ++ newline ++ location_str ++ newline ++ time_str)%string in
  let ax :=
    add_artist ax
      (TextArtist 0 (23 / 10) title "center" "top" (cardinal_text (colors self))
         14 (Some "bold"%string)) in
  let ax :=
    add_artist ax
      (ScatterPoint 0 0 20 (cardinal_text (colors self)) "+" (8 / 10) None) in
  add_artist ax
    (TextArtist 0 (- (1 / 10)) "Zenith" "center" "top"
       (cardinal_text (colors self)) 10 None).

(** [SkyRenderer.render_sky].  [clock] is the reading of the system clock
    and [loaded] the catalog that [StarCatalog()] builds in this run; the
    third component of the result is the [plt.savefig] call, if any. *)
Definition render_sky (self : SkyRenderer) (clock : Instant)
    (loaded : StarCatalog) (latitude longitude : R) (time : option Instant)
    (city_name save_path : option string)
    : Figure * Axes * option SaveFig :=
  let time := time_or_now time clock in
  let catalog := loaded in
  let sky_calc := SkyCalculator_init latitude longitude None in
  let '(fig, ax) := create_figure self in
  let ax := draw_horizon_and_grid self ax sky_calc in
  let stars := get_all_stars catalog in
  let star_positions :=
    calculate_star_positions transform_to_altaz sky_calc clock stars (Some time) in
  let ax := draw_stars self ax star_positions in
  let ax := draw_constellation_lines self ax star_positions catalog in
  let ax := add_title_and_info self ax latitude longitude time city_name in
  let saved :=
    match save_path with
    | Some path =>
        if truthy save_path
        then Some {| save_path_arg := path; save_dpi := dpi self;
                     save_facecolor := background (colors self) |}
        else None
    | None => None
    end in
  (fig, ax, saved).
End Renderer.

(** ** Notions used to state the properties *)

(** The radius the projection assigns to an altitude (in degrees). *)
Definition projected_radius (altitude : R) : R :=
  tan ((PI / 2 - Np.radians altitude) / 2).

(** The returned coordinate lists read as a sequence of points. *)
Definition horizon_points (xy : list R * list R) : list (R * R) :=
  combine (fst xy) (snd xy).

(** What [np.linspace(0, 360, n)] samples: [n] azimuths from 0 to 360, both
    ends included, [360 / (n - 1)] apart. *)
Definition closed_samples (n : nat) : list R :=
  map (fun i => 360 * INR i / INR (n - 1)) (seq 0 n).

(** The marker [draw_stars] adds for a position it does not skip. *)
Definition star_marker (self : SkyRenderer) (p : StarPosition) : Artist :=
  let xy := project_star_position self (altitude p) (azimuth p) in
  let size := calculate_star_size self (magnitude p) in
  ScatterPoint (fst xy) (snd xy) (size * size) (stars_color (colors self)) "*"
    (9 / 10) (Some "none"%string).

(** The two tests of the loop body: marked visible, and not outside the
    plotted area. *)
Definition star_drawnb (self : SkyRenderer) (p : StarPosition) : bool :=
  visible p
  && negb (Rgtb (norm2 (project_star_position self (altitude p) (azimuth p))) 4).

(** The segment joining two positions. *)
Definition segment (self : SkyRenderer) (star1 star2 : StarPosition) : Artist :=
  let p1 := project_star_position self (altitude star1) (azimuth star1) in
  let p2 := project_star_position self (altitude star2) (azimuth star2) in
  PlotLine [fst p1; fst p2] [snd p1; snd p2] (constellation_lines (colors self))
    1 (7 / 10).

(** The artist one line of a constellation adds, if any. *)
Definition edge_artist (self : SkyRenderer)
    (star_positions : list (Z * StarPosition)) (line : Z * Z) : option Artist :=
  match dict_get Z.eqb star_positions (fst line),
        dict_get Z.eqb star_positions (snd line) with
  | Some star1, Some star2 =>
      if visible star1 && visible star2
      then Some (segment self star1 star2) else None
  | _, _ => None
  end.

Definition option_list {A} (o : option A) : list A :=
  match o with Some a => [a] | None => [] end.

(** Every line the loops visit, constellation by constellation. *)
Definition all_lines (catalog : StarCatalog) : list (Z * Z) :=
  flat_map (get_constellation_lines catalog) (get_all_constellations catalog).

(** The title up to the formatted time. *)
Definition title_prefix (format_2f : R -> string) (latitude longitude : R)
    (city_name : option string) : string :=
  let location_str :=
    ("Lat: " ++ format_2f latitude ++ degree_sign ++ ", Lon: "
       ++ format_2f longitude ++ degree_sign)%string in
  let location_str :=
    match city_name with
    | Some name =>
        if truthy city_name
        then (name ++ " (" ++ location_str ++ ")")%string
        else location_str
    | None => location_str
    end in
  ("Night Sky View" ++ newline ++ location_str ++ newline)%string.

(** ** The specification's formulas *)

(** The specification's words: clamp, then map linearly and inversely. *)
Definition clamp (x lo hi : R) : R := Rmax lo (Rmin x hi).

Definition magnitudeToSize_spec (magnitude minSize maxSize ceiling : R) : R :=
  maxSize - (clamp magnitude 0 ceiling / ceiling) * (maxSize - minSize).

(** The specification's words: the projection, and azimuths sampled uniformly
    over the half-open interval from 0 to 360 at altitude 0. *)
Definition project_spec (altitude azimuth : R) : R * R :=
  let zenithDistance := PI / 2 - altitude * PI / 180 in
  let r := tan (zenithDistance / 2) in
  (r * sin (azimuth * PI / 180), r * cos (azimuth * PI / 180)).

Definition horizonBoundary_spec (numPoints : nat) : list (R * R) :=
  map (fun i => project_spec 0 (360 * INR i / INR numPoints)) (seq 0 numPoints).

(** ** Concrete inputs *)

(** The dict literal of [StarCatalog.create_sample_stars]. *)
Definition sample_stars : list (Z * StarData) :=
  [ (50801%Z, mkStarData (165931 / 1000) (61751 / 1000) (Some (18 / 10)) None);
    (53910%Z, mkStarData (165460 / 1000) (56382 / 1000) (Some (24 / 10)) None);
    (58001%Z, mkStarData (178457 / 1000) (53695 / 1000) (Some (24 / 10)) None);
    (59774%Z, mkStarData (183856 / 1000) (57032 / 1000) (Some (33 / 10)) None);
    (62956%Z, mkStarData (193507 / 1000) (55960 / 1000) (Some (18 / 10)) None);
    (65378%Z, mkStarData (200981 / 1000) (54925 / 1000) (Some (23 / 10)) None);
    (67301%Z, mkStarData (206885 / 1000) (49313 / 1000) (Some (19 / 10)) None);
    (54061%Z, mkStarData (166079 / 1000) (61751 / 1000) (Some (18 / 10)) None);
    (25336%Z, mkStarData (88793 / 1000) (7407 / 1000) (Some (4 / 10)) None);
    (25930%Z, mkStarData (81283 / 1000) (6350 / 1000) (Some (16 / 10)) None);
    (26207%Z, mkStarData (84053 / 1000) (- (1202 / 1000)) (Some (17 / 10)) None);
    (27989%Z, mkStarData (78634 / 1000) (- (8202 / 1000)) (Some (1 / 10)) None);
    (28716%Z, mkStarData (86939 / 1000) (- (9670 / 1000)) (Some (21 / 10)) None);
    (3179%Z, mkStarData (9182 / 1000) (59150 / 1000) (Some (23 / 10)) None);
    (6686%Z, mkStarData (14177 / 1000) (56537 / 1000) (Some (22 / 10)) None);
    (11415%Z, mkStarData (14177 / 1000) (60717 / 1000) (Some (25 / 10)) None);
    (14404%Z, mkStarData (23396 / 1000) (57815 / 1000) (Some (27 / 10)) None);
    (21609%Z, mkStarData (28599 / 1000) (63670 / 1000) (Some (34 / 10)) None) ].

(** [StarCatalog.create_sample_stars], run on the star dictionary [stars]:
    every sample star is stored under its id, with the id as ['hip_id']. *)
Definition create_sample_stars (stars : list (Z * StarData))
    : list (Z * StarData) :=
  fold_left
    (fun stars '(hip_id, data) =>
       dict_set Z.eqb stars hip_id
         {| sd_ra := sd_ra data;
            sd_dec := sd_dec data;
            sd_magnitude := sd_magnitude data;
            sd_hip_id := Some hip_id |})
    sample_stars stars.

(** The catalog built when the Hipparcos download fails. *)
Definition fallback_catalog : StarCatalog :=
  {| stars := create_sample_stars [];
     constellations := load_constellation_data |}.

(** A transformation to run examples with: seen from the north pole the
    altitude of a star is its declination; the azimuth is taken to be the
    right ascension. *)
Definition polar_altaz (lat lon height : R) (t : nat) (ra dec : R) : R * R :=
  (dec, ra).

(** The example of the specification: a star at altitude 10 and one at
    altitude -5, the second without a magnitude, joined by one line. *)
Definition two_stars : list (Z * StarData) :=
  [ (1%Z, mkStarData 0 10 (Some 2) (Some 1%Z));
    (2%Z, mkStarData 90 (-5) None None) ].

Definition two_star_catalog : StarCatalog :=
  {| stars := two_stars;
     constellations :=
       [ ("Pair"%string, mkConstellation (Some [(1, 2); (1, 3); (1, 1)]%Z)) ] |}.

Definition polar_calc : SkyCalculator := SkyCalculator_init 90 0 None.

Definition default_renderer : SkyRenderer := SkyRenderer_init 12 12 100.

(** The two positions of the example, as the calculator computes them. *)
Definition position_1 : StarPosition :=
  {| ra := 0; dec := 10; altitude := 10; azimuth := 0; magnitude := 2;
     visible := true |}.

Definition position_2 : StarPosition :=
  {| ra := 90; dec := -5; altitude := -5; azimuth := 90; magnitude := 5;
     visible := false |}.

(** ** star_catalog.py: loading the catalog *)

(** A row of the Hipparcos dataframe: the values the loader asks for.
    Whether a value can be reached under its label is decided by the frame's
    columns, not by the row. *)
Record HipparcosRow := mkHipparcosRow {
  hip : Z;
  ra_degrees : R;
  dec_degrees : R;
  row_magnitude : R
}.

(** The dataframe that [hipparcos.load_dataframe] returns: its column
    labels and its rows.  A label that is not a column cannot be read: the
    frame of skyfield keeps the Hipparcos number as the index of the frame,
    so ["hip"] is not among its columns. *)
Record DataFrame := mkDataFrame {
  df_columns : list string;
  df_rows : list HipparcosRow
}.

(** The Python comparison [a < b] on floats. *)
Definition Rltb (a b : R) : bool := if Rlt_dec a b then true else false.

(** [label in columns] *)
Definition has_column (columns : list string) (label : string) : bool :=
  existsb (String.eqb label) columns.

(** Reading a value under a label, [frame[label]] or [row[label]]: [None]
    stands for the [KeyError] raised when the label is not a column. *)
Definition column_value {A : Type} (columns : list string) (label : string)
    (value : A) : option A :=
  if has_column columns label then Some value else None.

(** The star record the loader stores for a row. *)
Definition star_of_row (star_data : HipparcosRow) : StarData :=
  {| sd_ra := ra_degrees star_data;
     sd_dec := dec_degrees star_data;
     sd_magnitude := Some (row_magnitude star_data);
     sd_hip_id := Some (hip star_data) |}.

(** The loop of [load_hipparcos_catalog] over the bright rows.  It yields
    the star dictionary when the loop ends, and whether it ended by an
    exception: the rows stored before the exception stay stored. *)
Fixpoint store_rows (columns : list string) (rows : list HipparcosRow)
    (stars : list (Z * StarData)) : list (Z * StarData) * bool :=
  match rows with
  | [] => (stars, false)
  | star_data :: rest =>
      match column_value columns "hip" (hip star_data),
            column_value columns "ra_degrees" (ra_degrees star_data),
            column_value columns "dec_degrees" (dec_degrees star_data),
            column_value columns "magnitude" (row_magnitude star_data) with
      | Some hip_id, Some ra, Some dec, Some mag =>
          store_rows columns rest
            (dict_set Z.eqb stars hip_id
               {| sd_ra := ra; sd_dec := dec; sd_magnitude := Some mag;
                  sd_hip_id := Some hip_id |})
      | _, _, _, _ => (stars, true)
      end
  end.

(** [StarCatalog.load_hipparcos_catalog], run on the star dictionary
    [stars].  [download] is the dataframe that opening and reading the
    Hipparcos file yields, or [None] when that raises.  Every exception of
    the [try] block (the failed download, the [KeyError] of a label that is
    not a column) ends in the [except] branch, which adds the sample stars
    to what the dictionary holds by then. *)
Definition load_hipparcos_catalog (stars : list (Z * StarData))
    (download : option DataFrame) : list (Z * StarData) :=
  match download with
  | Some df =>
      match column_value (df_columns df) "magnitude" (df_rows df) with
      | Some rows =>
          let bright_stars :=
            filter (fun row => Rltb (row_magnitude row) 6) rows in
          let '(stars, raised) :=
            store_rows (df_columns df) bright_stars stars in
          if raised then create_sample_stars stars else stars
      | None => create_sample_stars stars
      end
  | None => create_sample_stars stars
  end.

(** [StarCatalog.__init__]: empty dictionaries, then [load_data]. *)
Definition StarCatalog_init (download : option DataFrame) : StarCatalog :=
  let stars := [] in
  let stars := load_hipparcos_catalog stars download in
  {| stars := stars; constellations := load_constellation_data |}.

(** What the chart reads of a star: its id, its coordinates, and its
    magnitude or the default 5.0. *)
Definition star_content (item : Z * StarData) : Z * R * R * R :=
  (fst item, sd_ra (snd item), sd_dec (snd item),
   match sd_magnitude (snd item) with Some m => m | None => 5 end).

(** A frame laid out as skyfield's: the Hipparcos number is the index, not
    a column. *)
Definition skyfield_frame : DataFrame :=
  {| df_columns := ["magnitude"; "ra_degrees"; "dec_degrees"]%string;
     df_rows := [ mkHipparcosRow 32349 (101287 / 1000) (- (16716 / 1000))
                    (- (146 / 100));
                  mkHipparcosRow 1 0 1 9 ] |}.

(** ** main.py *)

(** The parsed command line. *)
Record Args := mkArgs {
  arg_location : option string;
  arg_lat : option R;
  arg_lon : option R;
  arg_city : option string;
  arg_time : option string;
  arg_output : option string;
  arg_width : R;
  arg_height : R;
  arg_dpi : R;
  arg_list_locations : bool;
  arg_auto_location : bool
}.

Record SampleLocation := mkSampleLocation {
  loc_lat : R;
  loc_lon : R;
  loc_name : string
}.

(** [get_sample_locations] *)
Definition get_sample_locations : list (string * SampleLocation) :=
  [ ("new_york"%string,
      mkSampleLocation (407128 / 10000) (- (740060 / 10000)) "New York City");
    ("london"%string,
      mkSampleLocation (515074 / 10000) (- (1278 / 10000)) "London");
    ("tokyo"%string,
      mkSampleLocation (356762 / 10000) (1396503 / 10000) "Tokyo");
    ("sydney"%string,
      mkSampleLocation (- (338688 / 10000)) (1512093 / 10000) "Sydney");
    ("paris"%string,
      mkSampleLocation (488566 / 10000) (23522 / 10000) "Paris");
    ("cairo"%string,
      mkSampleLocation (300444 / 10000) (312357 / 10000) "Cairo");
    ("reykjavik"%string,
      mkSampleLocation (641466 / 10000) (- (219426 / 10000)) "Reykjavik");
    ("anchorage"%string,
      mkSampleLocation (612181 / 10000) (- (1499003 / 10000)) "Anchorage") ].

(** What [LocationDetector.get_location_info] returns after a successful
    detection, with the keys [main] reads; a service may leave any of them
    unset. *)
Record LocationInfo := mkLocationInfo {
  info_latitude : option R;
  info_longitude : option R;
  info_city : option string
}.

(** How a run of [main] ends. *)
Inductive Outcome (A : Type) :=
| Returned            (* the early [return] after listing the locations *)
| SysExit (code : Z) (message : string)
| Raised (exception : string)
| Done (result : A).
Arguments Returned {A}.
Arguments SysExit {A}.
Arguments Raised {A}.
Arguments Done {A}.

(** Python's [s or default] on an optional string. *)
Definition or_default (s : option string) (default : string) : string :=
  match s with
  | Some EmptyString | None => default
  | Some v => v
  end.

(** The arguments of the call of [render_sky] that [main] makes. *)
Record RenderCall (Instant : Type) := mkRenderCall {
  rc_renderer : SkyRenderer;
  rc_latitude : R;
  rc_longitude : R;
  rc_time : Instant;
  rc_city_name : string;
  rc_save_path : option string
}.
Arguments mkRenderCall {Instant}.
Arguments rc_renderer {Instant}.
Arguments rc_latitude {Instant}.
Arguments rc_longitude {Instant}.
Arguments rc_time {Instant}.
Arguments rc_city_name {Instant}.
Arguments rc_save_path {Instant}.

Section Main.
Context {Instant : Type}.
(** [datetime.strptime(s, fmt)] read as UTC; [None] when it raises
    [ValueError]. *)
Variable strptime : string -> string -> option Instant.

(** [parse_time] *)
Definition parse_time (time_str : string) : Outcome Instant :=
  match strptime time_str "%Y-%m-%d %H:%M:%S" with
  | Some dt => Done dt
  | None => SysExit 1 "Error: Invalid time format. Use 'YYYY-MM-DD HH:MM:SS'"
  end.

(** The two places where [main] detects the location.  [detected] is the
    location information when [detect_location()] succeeds. *)
Definition detected_location (detected : option LocationInfo)
    (message : string) : Outcome (option R * option R * string) :=
  match detected with
  | Some info =>
      Done (info_latitude info, info_longitude info,
            or_default (info_city info) "Auto-detected Location")
  | None => SysExit 1 message
  end.

(** [main], from the parsed arguments to the call of [render_sky]. *)
Definition main_call (args : Args) (detected : option LocationInfo)
    (clock : Instant) : Outcome (RenderCall Instant) :=
  if arg_list_locations args then Returned
  else
    let location :=
      if arg_auto_location args then
        detected_location detected
          "Error: Could not detect location automatically"
      else if truthy (arg_location args) then
        match arg_location args with
        | Some key =>
            match dict_get String.eqb get_sample_locations key with
            | Some location_data =>
                Done (Some (loc_lat location_data),
                      Some (loc_lon location_data), loc_name location_data)
            | None => Raised "KeyError"
            end
        | None => Raised "KeyError"
        end
      else
        match arg_lat args with
        | Some lat =>
            match arg_lon args with
            | None => SysExit 1 "Error: --lon is required when using --lat"
            | Some lon =>
                Done (Some lat, Some lon,
                      or_default (arg_city args) "Custom Location")
            end
        | None =>
            detected_location detected
              "Error: Could not detect location automatically"
        end in
    match location with
    | Returned => Returned
    | SysExit code message => SysExit code message
    | Raised exception => Raised exception
    | Done (latitude, longitude, city_name) =>
        let time :=
          if truthy (arg_time args) then
            match arg_time args with
            | Some time_str => parse_time time_str
            | None => Done clock
            end
          else Done clock in
        match time with
        | Returned => Returned
        | SysExit code message => SysExit code message
        | Raised exception => Raised exception
        | Done time =>
            let renderer :=
              SkyRenderer_init (arg_width args) (arg_height args)
                (arg_dpi args) in
            (* the coordinates are printed with the format .4f *)
            match latitude, longitude with
            | Some latitude, Some longitude =>
                Done (mkRenderCall renderer latitude longitude time city_name
                        (arg_output args))
            | _, _ => Raised "TypeError"
            end
        end
    end.

Variable transform_to_altaz : R -> R -> R -> Instant -> R -> R -> R * R.
Variable strftime : Instant -> string -> string.
Variable format_2f : R -> string.

(** [main]: the chart rendered, and whether it is shown on screen. *)
Definition main (args : Args) (detected : option LocationInfo)
    (clock : Instant) (loaded : StarCatalog)
    : Outcome (Figure * Axes * option SaveFig * bool) :=
  match main_call args detected clock with
  | Returned => Returned
  | SysExit code message => SysExit code message
  | Raised exception => Raised exception
  | Done call =>
      Done (render_sky transform_to_altaz strftime format_2f
              (rc_renderer call) clock loaded (rc_latitude call)
              (rc_longitude call) (Some (rc_time call))
              (Some (rc_city_name call)) (rc_save_path call),
            negb (truthy (arg_output args)))
  end.
End Main.

(** ** Further notions and inputs *)

(** The seven artists of the horizon and grid, in paint order. *)
Definition grid_artists (self : SkyRenderer) : list Artist :=
  [ CirclePatch (0, 0) 1 false (horizon (colors self)) 2 None None;
    CirclePatch (0, 0) (projected_radius 30) false
      (altitude_circles (colors self)) 1 (Some "--"%string) (Some (5 / 10));
    CirclePatch (0, 0) (projected_radius 60) false
      (altitude_circles (colors self)) 1 (Some "--"%string) (Some (5 / 10));
    TextArtist 0 (11 / 10) "North" "center" "center"
      (cardinal_text (colors self)) 12 (Some "bold"%string);
    TextArtist (11 / 10) 0 "East" "center" "center"
      (cardinal_text (colors self)) 12 (Some "bold"%string);
    TextArtist 0 (- (11 / 10)) "South" "center" "center"
      (cardinal_text (colors self)) 12 (Some "bold"%string);
    TextArtist (- (11 / 10)) 0 "West" "center" "center"
      (cardinal_text (colors self)) 12 (Some "bold"%string) ].

(** An axes object with more artists added at the end. *)
Definition with_artists (ax : Axes) (added : list Artist) : Axes :=
  {| xlim := xlim ax; ylim := ylim ax; aspect := aspect ax;
     ax_facecolor := ax_facecolor ax; artists := artists ax ++ added |}.

(** The three artists of the title block. *)
Definition title_artists {Instant : Type}
    (strftime : Instant -> string -> string) (format_2f : R -> string)
    (self : SkyRenderer) (latitude longitude : R) (time : Instant)
    (city_name : option string) : list Artist :=
  [ TextArtist 0 (23 / 10)
      (title_prefix format_2f latitude longitude city_name
         ++ strftime time "%Y-%m-%d %H:%M UTC"%string)
      "center" "top" (cardinal_text (colors self)) 14 (Some "bold"%string);
    ScatterPoint 0 0 20 (cardinal_text (colors self)) "+" (8 / 10) None;
    TextArtist 0 (- (1 / 10)) "Zenith" "center" "top"
      (cardinal_text (colors self)) 10 None ].

(** The save request of a run: none for no path or an empty path. *)
Definition save_request (self : SkyRenderer) (save_path : option string)
    : option SaveFig :=
  match save_path with
  | Some path =>
      if String.eqb path "" then None
      else Some {| save_path_arg := path; save_dpi := dpi self;
                   save_facecolor := background (colors self) |}
  | None => None
  end.

(** A catalog with one star, below the horizon. *)
Definition sunk_catalog : StarCatalog :=
  {| stars := [(2%Z, mkStarData 90 (-5) None None)];
     constellations := [("Lone"%string, mkConstellation (Some [(2, 2)]%Z))] |}.

(** The command line [--location tokyo]. *)
Definition tokyo_args : Args :=
  {| arg_location := Some "tokyo"%string;
     arg_lat := None; arg_lon := None; arg_city := None;
     arg_time := None; arg_output := None;
     arg_width := 12; arg_height := 12; arg_dpi := 100;
     arg_list_locations := false; arg_auto_location := false |}.

Definition tokyo_call : RenderCall nat :=
  mkRenderCall (SkyRenderer_init 12 12 100) (356762 / 10000) (1396503 / 10000)
    0%nat "Tokyo" None.

(** The record [create_sample_stars] stores for an item of its table. *)
Definition sample_record (item : Z * StarData) : StarData :=
  {| sd_ra := sd_ra (snd item);
     sd_dec := sd_dec (snd item);
     sd_magnitude := sd_magnitude (snd item);
     sd_hip_id := Some (fst item) |}.

(** What every star record of a built catalog satisfies. *)
Definition catalog_record (hip_id : Z) (data : StarData) : Prop :=
  sd_hip_id data = Some hip_id
  /\ exists m, sd_magnitude data = Some m /\ m < 6.

(** The same two stars and three lines held differently: other
    ['hip_id'] fields, the default magnitude written out, the lines split
    over two constellations. *)
Definition two_star_catalog_again : StarCatalog :=
  {| stars := [ (1%Z, mkStarData 0 10 (Some 2) None);
                (2%Z, mkStarData 90 (-5) (Some 5) (Some 2%Z)) ];
     constellations :=
       [ ("First"%string, mkConstellation (Some [(1, 2)]%Z));
         ("Empty"%string, mkConstellation None);
         ("Second"%string, mkConstellation (Some [(1, 3); (1, 1)]%Z)) ] |}.

(** * Properties *)

(** ** The stereographic projection *)

Lemma project_to_stereographic_polar self altitude azimuth :
  project_to_stereographic self altitude azimuth
  = (projected_radius altitude * sin (Np.radians azimuth),
     projected_radius altitude * cos (Np.radians azimuth)).
Proof. reflexivity. Qed.

Lemma norm2_polar r a : norm2 (r * sin a, r * cos a) = r * r.
Proof.
  unfold norm2; simpl.
  pose proof (sin2_cos2 a) as H. unfold Rsqr in H.
  replace (r * sin a * (r * sin a) + r * cos a * (r * cos a))
    with (r * r * (sin a * sin a + cos a * cos a)) by ring.
  rewrite H. ring.
Qed.

Lemma norm2_project_to_stereographic self altitude azimuth :
  norm2 (project_to_stereographic self altitude azimuth)
  = projected_radius altitude * projected_radius altitude.
Proof. rewrite project_to_stereographic_polar. apply norm2_polar. Qed.

Lemma projected_radius_zenith : projected_radius 90 = 0.
Proof.
  unfold projected_radius, Np.radians.
  replace ((PI / 2 - 90 * (PI / 180)) / 2) with 0 by field.
  apply tan_0.
Qed.

Lemma projected_radius_horizon : projected_radius 0 = 1.
Proof.
  unfold projected_radius, Np.radians.
  replace ((PI / 2 - 0 * (PI / 180)) / 2) with (PI / 4) by field.
  apply tan_PI4.
Qed.

(** Below the horizon, and above the nadir, the radius exceeds 1. *)
Lemma projected_radius_below_horizon altitude :
  -90 < altitude < 0 -> 1 < projected_radius altitude.
Proof.
  intros [Hlo Hhi].
  unfold projected_radius, Np.radians.
  pose proof PI_RGT_0 as Hpi.
  rewrite <- tan_PI4.
  apply tan_increasing; nra.
Qed.

(** Above the horizon, up to the zenith, the radius is below 1. *)
Lemma projected_radius_above_horizon altitude :
  0 < altitude <= 90 -> projected_radius altitude < 1.
Proof.
  intros [Hlo Hhi].
  unfold projected_radius, Np.radians.
  pose proof PI_RGT_0 as Hpi.
  rewrite <- tan_PI4.
  apply tan_increasing; nra.
Qed.

(** At the nadir the argument of [tan] is [PI / 2], where the cosine that
    [tan] divides by vanishes: the source has no branch for this altitude. *)
Lemma nadir_is_the_pole_of_tan :
  (PI / 2 - Np.radians (-90)) / 2 = PI / 2 /\ cos (PI / 2) = 0.
Proof.
  split; [unfold Np.radians; field | apply cos_PI2].
Qed.

(** C1: for every azimuth the projection sends altitude 90 to the origin,
    altitude 0 to a point of the unit circle, and every altitude strictly
    between -90 and 0 to a point strictly outside the unit circle. *)
Theorem project_to_stereographic_zenith_horizon_below :
  forall (self : SkyCalculator) (azimuth : R),
    project_to_stereographic self 90 azimuth = (0, 0)
    /\ norm2 (project_to_stereographic self 0 azimuth) = 1
    /\ (forall altitude, -90 < altitude < 0 ->
          norm2 (project_to_stereographic self altitude azimuth) > 1).
Proof.
  intros self az. repeat split.
  - rewrite project_to_stereographic_polar, projected_radius_zenith.
    f_equal; ring.
  - rewrite norm2_project_to_stereographic, projected_radius_horizon. ring.
  - intros alt Halt.
    rewrite norm2_project_to_stereographic.
    pose proof (projected_radius_below_horizon alt Halt). nra.
Qed.

(** The calculator hands latitude, longitude, elevation, right ascension and
    declination to the library transformation as they are: no value is
    clamped or checked on the way. *)
Lemma celestial_to_horizontal_passes_through
    {Instant : Type}
    (transform_to_altaz : R -> R -> R -> Instant -> R -> R -> R * R)
    (lat lon ra dec : R) (clock t : Instant) :
  celestial_to_horizontal transform_to_altaz (SkyCalculator_init lat lon None)
    clock ra dec (Some t)
  = transform_to_altaz lat lon 0 t ra dec.
Proof. reflexivity. Qed.

(** C9: the renderer's copy of the projection and the calculator's agree on
    every altitude and azimuth, whatever the two objects are. *)
Theorem project_star_position_eq_project_to_stereographic :
  forall (renderer : SkyRenderer) (calc : SkyCalculator) (altitude azimuth : R),
    project_star_position renderer altitude azimuth
    = project_to_stereographic calc altitude azimuth.
Proof. intros. reflexivity. Qed.

(** ** Magnitude to marker size *)

Lemma py_min_Rmin a b : py_min a b = Rmin a b.
Proof.
  unfold py_min, Rmin.
  destruct (Rlt_dec b a), (Rle_dec a b); lra.
Qed.

Lemma py_max_Rmax a b : py_max a b = Rmax a b.
Proof.
  unfold py_max, Rmax.
  destruct (Rlt_dec a b), (Rle_dec a b); lra.
Qed.

Lemma calculate_star_size_spec self m :
  calculate_star_size self m
  = magnitudeToSize_spec m (min_size (star_sizes self))
      (max_size (star_sizes self)) (magnitude_range (star_sizes self)).
Proof.
  unfold calculate_star_size, magnitudeToSize_spec, clamp.
  now rewrite py_max_Rmax, py_min_Rmin.
Qed.

Lemma clamp_mono x y lo hi : x <= y -> clamp x lo hi <= clamp y lo hi.
Proof.
  intros Hxy. unfold clamp.
  now apply Rle_max_compat_l, Rle_min_compat_r.
Qed.

Lemma clamp_above x lo hi : lo <= hi -> hi <= x -> clamp x lo hi = hi.
Proof.
  intros H1 H2. unfold clamp.
  rewrite (Rmin_right x hi H2). now apply Rmax_right.
Qed.

Lemma clamp_below x lo hi : lo <= hi -> x <= lo -> clamp x lo hi = lo.
Proof.
  intros H1 H2. unfold clamp.
  rewrite (Rmin_left x hi) by lra. now apply Rmax_left.
Qed.

Lemma default_star_size w h d m :
  calculate_star_size (SkyRenderer_init w h d) m
  = 8 - (clamp m 0 6 / 6) * (8 - 1).
Proof. rewrite calculate_star_size_spec. reflexivity. Qed.

(** C5: with the sizes set by the constructor (1, 8 and ceiling 6) the
    marker size of magnitude m is 8 - (clamp(m, 0, 6) / 6) * (8 - 1); it does
    not increase with m, is 1 from magnitude 6 on and 8 up to magnitude 0,
    and is 8, 1 and 1 at magnitudes 0, 6 and 10. *)
Theorem calculate_star_size_linear_clamped :
  forall (w h d : R),
    (forall m, calculate_star_size (SkyRenderer_init w h d) m
               = magnitudeToSize_spec m 1 8 6)
    /\ (forall m1 m2, m1 <= m2 ->
          calculate_star_size (SkyRenderer_init w h d) m2
          <= calculate_star_size (SkyRenderer_init w h d) m1)
    /\ (forall m, 6 <= m -> calculate_star_size (SkyRenderer_init w h d) m = 1)
    /\ (forall m, m <= 0 -> calculate_star_size (SkyRenderer_init w h d) m = 8)
    /\ calculate_star_size (SkyRenderer_init w h d) 0 = 8
    /\ calculate_star_size (SkyRenderer_init w h d) 6 = 1
    /\ calculate_star_size (SkyRenderer_init w h d) 10 = 1.
Proof.
  intros w h d.
  assert (Hhi : forall m, 6 <= m ->
            calculate_star_size (SkyRenderer_init w h d) m = 1).
  { intros m Hm. rewrite default_star_size, clamp_above by lra. field. }
  assert (Hlo : forall m, m <= 0 ->
            calculate_star_size (SkyRenderer_init w h d) m = 8).
  { intros m Hm. rewrite default_star_size, clamp_below by lra. field. }
  repeat split.
  - intros m. apply calculate_star_size_spec.
  - intros m1 m2 Hle. rewrite !default_star_size.
    pose proof (clamp_mono m1 m2 0 6 Hle). lra.
  - exact Hhi.
  - exact Hlo.
  - apply Hlo; lra.
  - apply Hhi; lra.
  - apply Hhi; lra.
Qed.

(** ** The horizon circle *)

Lemma linspace_0_360 n : Np.linspace 0 360 n = closed_samples n.
Proof.
  unfold closed_samples.
  destruct n as [|[|k]].
  - reflexivity.
  - simpl. f_equal. unfold Rdiv. ring.
  - unfold Np.linspace.
    replace (S (S k) - 1)%nat with (S k) by lia.
    apply map_ext. intros i.
    assert (Hk : INR (S k) <> 0) by (apply not_0_INR; discriminate).
    destruct (Nat.eqb_spec i (S k)) as [->|_]; field; exact Hk.
Qed.

Lemma closed_samples_range n az :
  In az (closed_samples n) -> 0 <= az <= 360.
Proof.
  unfold closed_samples. rewrite in_map_iff.
  intros [i [<- Hi]]. apply in_seq in Hi. destruct Hi as [_ Hi]. simpl in Hi.
  destruct n as [|[|k]]; [lia | |].
  - assert (i = 0%nat) as -> by lia. simpl. unfold Rdiv. lra.
  - replace (S (S k) - 1)%nat with (S k) by lia.
    assert (Hk : 0 < INR (S k)) by (apply lt_0_INR; lia).
    assert (Hik : INR i <= INR (S k)) by (apply le_INR; lia).
    pose proof (pos_INR i) as Hi0.
    split.
    + apply Rmult_le_pos; [nra | left; now apply Rinv_0_lt_compat].
    + apply (Rmult_le_reg_r (INR (S k))); [exact Hk|].
      unfold Rdiv. rewrite Rmult_assoc, Rinv_l by lra. nra.
Qed.

Lemma closed_samples_endpoint n : (2 <= n)%nat -> In 360 (closed_samples n).
Proof.
  intros Hn. unfold closed_samples. apply in_map_iff.
  exists (n - 1)%nat. split.
  - assert (Hk : INR (n - 1) <> 0) by (apply not_0_INR; lia). now field.
  - apply in_seq. lia.
Qed.

Lemma horizon_loop self azs xs ys :
  fold_left
    (fun (acc : list R * list R) az =>
       let '(x, y) := project_to_stereographic self 0 az in
       (fst acc ++ [x], snd acc ++ [y]))
    azs (xs, ys)
  = (xs ++ map (fun az => fst (project_to_stereographic self 0 az)) azs,
     ys ++ map (fun az => snd (project_to_stereographic self 0 az)) azs).
Proof.
  revert xs ys. induction azs as [|az azs IH]; intros xs ys; simpl.
  - now rewrite !app_nil_r.
  - rewrite IH. now rewrite <- !app_assoc.
Qed.

Lemma get_horizon_circle_maps self n :
  get_horizon_circle self n
  = (map (fun az => fst (project_to_stereographic self 0 az)) (closed_samples n),
     map (fun az => snd (project_to_stereographic self 0 az)) (closed_samples n)).
Proof.
  unfold get_horizon_circle. now rewrite horizon_loop, linspace_0_360.
Qed.

Lemma horizon_points_map self n :
  horizon_points (get_horizon_circle self n)
  = map (project_to_stereographic self 0) (closed_samples n).
Proof.
  rewrite get_horizon_circle_maps. unfold horizon_points; simpl.
  induction (closed_samples n) as [|az l IH]; simpl; [reflexivity|].
  now rewrite IH.
Qed.

Lemma radians_360 : Np.radians 360 = 2 * PI.
Proof. unfold Np.radians. field. Qed.

Lemma radians_180 : Np.radians 180 = PI.
Proof. unfold Np.radians. field. Qed.

(** C7, as the code has it: for every numPoints the horizon circle is the
    projection, at altitude 0, of numPoints azimuths sampled uniformly over
    the closed interval from 0 to 360 (step 360 / (numPoints - 1), both ends
    included once there are two samples); every point is on the unit circle;
    and the result is the same for every calculator object. *)
Theorem get_horizon_circle_closed_uniform :
  forall (self : SkyCalculator) (num_points : nat),
    get_horizon_circle self num_points
    = (map (fun az => fst (project_to_stereographic self 0 az))
         (closed_samples num_points),
       map (fun az => snd (project_to_stereographic self 0 az))
         (closed_samples num_points))
    /\ List.length (closed_samples num_points) = num_points
    /\ (forall az, In az (closed_samples num_points) -> 0 <= az <= 360)
    /\ ((1 <= num_points)%nat -> In 0 (closed_samples num_points))
    /\ ((2 <= num_points)%nat -> In 360 (closed_samples num_points))
    /\ Forall (fun p => norm2 p = 1)
         (horizon_points (get_horizon_circle self num_points))
    /\ (forall other : SkyCalculator,
          get_horizon_circle other num_points
          = get_horizon_circle self num_points).
Proof.
  intros self n. split; [|split; [|split; [|split; [|split; [|split]]]]].
  - apply get_horizon_circle_maps.
  - unfold closed_samples. now rewrite length_map, length_seq.
  - apply closed_samples_range.
  - intros Hn. unfold closed_samples. apply in_map_iff.
    exists 0%nat. split; [simpl; unfold Rdiv; ring | apply in_seq; lia].
  - apply closed_samples_endpoint.
  - rewrite horizon_points_map. apply Forall_forall.
    intros p Hp. apply in_map_iff in Hp. destruct Hp as [az [<- _]].
    rewrite norm2_project_to_stereographic, projected_radius_horizon. ring.
  - intros other. now rewrite !get_horizon_circle_maps.
Qed.

(** C7 as stated fails: with two points the code samples azimuths 0 and 360
    (the same point of the circle twice), where a uniform sample of the
    half-open interval has azimuths 0 and 180. *)
Lemma get_horizon_circle_not_half_open :
  Np.linspace 0 360 2 = [INR 0 * ((360 - 0) / INR 1) + 0; 360]
  /\ ~ (forall az, In az (Np.linspace 0 360 2) -> 0 <= az < 360)
  /\ horizon_points (get_horizon_circle (SkyCalculator_init 0 0 None) 2)
     <> horizonBoundary_spec 2.
Proof.
  split; [reflexivity|]. split.
  - intros H. specialize (H 360). simpl in H.
    assert (0 <= 360 < 360) by (apply H; right; left; reflexivity). lra.
  - intros H.
    apply (f_equal (fun l => snd (nth 1 l (0, 0)))) in H.
    rewrite horizon_points_map in H.
    unfold closed_samples, horizonBoundary_spec, project_spec in H.
    cbn [seq map nth snd Nat.sub] in H.
    rewrite project_to_stereographic_polar, projected_radius_horizon in H.
    cbn [snd] in H.
    replace (360 * INR 1 / INR 1) with 360 in H by (simpl; field).
    replace (360 * INR 1 / INR 2 * PI / 180) with PI in H by (simpl; field).
    replace ((PI / 2 - 0 * PI / 180) / 2) with (PI / 4) in H by field.
    rewrite radians_360, cos_2PI, cos_PI, tan_PI4 in H. lra.
Qed.

(** ** Dictionaries *)

Section DictFacts.
Context {K : Type} (eqb : K -> K -> bool).
Hypothesis eqb_spec : forall a b, reflect (a = b) (eqb a b).

Lemma dict_get_None {V} (d : list (K * V)) k :
  dict_get eqb d k = None <-> ~ In k (keys d).
Proof.
  induction d as [|[k' v] d IH]; simpl.
  - tauto.
  - destruct (eqb_spec k k') as [->|Hne].
    + split; [discriminate | intros H; exfalso; apply H; now left].
    + rewrite IH. split; [intros H [E|I]; [now apply Hne | now apply H] | tauto].
Qed.

Lemma dict_get_In {V} (d : list (K * V)) k v :
  NoDup (keys d) -> In (k, v) d -> dict_get eqb d k = Some v.
Proof.
  induction d as [|[k' v'] d IH]; simpl; [tauto|].
  intros Hnd [E|I].
  - injection E as -> ->. now destruct (eqb_spec k k).
  - inversion Hnd as [|? ? Hnotin Hnd']; subst.
    destruct (eqb_spec k k') as [->|_].
    + exfalso. apply Hnotin. apply in_map_iff. now exists (k', v).
    + now apply IH.
Qed.

Lemma dict_get_Some_In {V} (d : list (K * V)) k v :
  dict_get eqb d k = Some v -> In (k, v) d.
Proof.
  induction d as [|[k' v'] d IH]; simpl; [discriminate|].
  destruct (eqb_spec k k') as [->|_].
  - intros [= ->]. now left.
  - intros H. right. now apply IH.
Qed.

(** Assigning to a key that is absent appends the item. *)
Lemma dict_set_fresh {V} (d : list (K * V)) k v :
  ~ In k (keys d) -> dict_set eqb d k v = d ++ [(k, v)].
Proof.
  induction d as [|[k' v'] d IH]; simpl; [reflexivity|].
  intros Hnotin.
  destruct (eqb_spec k k') as [->|_].
  - exfalso. apply Hnotin. now left.
  - rewrite IH; [reflexivity | tauto].
Qed.

(** A loop that assigns [g v] to every key of a dictionary builds, item by
    item and in the same order, the dictionary of the images. *)
Lemma fold_dict_set {V W} (g : V -> W) (l : list (K * V)) (acc : list (K * W)) :
  NoDup (keys acc ++ keys l) ->
  fold_left (fun d '(k, v) => dict_set eqb d k (g v)) l acc
  = acc ++ map (fun '(k, v) => (k, g v)) l.
Proof.
  revert acc. induction l as [|[k v] l IH]; intros acc Hnd; simpl.
  - now rewrite app_nil_r.
  - rewrite dict_set_fresh.
    + rewrite IH.
      * now rewrite <- app_assoc.
      * unfold keys in *. rewrite map_app. simpl.
        rewrite <- app_assoc. exact Hnd.
    + apply NoDup_remove_2 in Hnd. intros Hin. apply Hnd.
      apply in_or_app. now left.
Qed.

Lemma keys_map_values {V W} (g : V -> W) (l : list (K * V)) :
  keys (map (fun '(k, v) => (k, g v)) l) = keys l.
Proof.
  unfold keys. rewrite map_map. apply map_ext. now intros [k v].
Qed.

Lemma dict_get_map_values {V W} (g : V -> W) (l : list (K * V)) k :
  dict_get eqb (map (fun '(k, v) => (k, g v)) l) k
  = option_map g (dict_get eqb l k).
Proof.
  induction l as [|[k' v] l IH]; simpl; [reflexivity|].
  now destruct (eqb k k').
Qed.
End DictFacts.

Lemma Zeqb_spec a b : reflect (a = b) (Z.eqb a b).
Proof. apply Z.eqb_spec. Qed.

Lemma Rgtb_true a b : Rgtb a b = true <-> a > b.
Proof. unfold Rgtb. destruct (Rgt_dec a b); split; (congruence || tauto). Qed.

Lemma Rgtb_false a b : Rgtb a b = false <-> a <= b.
Proof.
  unfold Rgtb. destruct (Rgt_dec a b); split; try congruence; try lra.
Qed.

(** ** Star positions *)

Section CalculatorFacts.
Context {Instant : Type}.
Variable transform_to_altaz : R -> R -> R -> Instant -> R -> R -> R * R.

Abbreviation star_position' := (star_position transform_to_altaz).
Abbreviation positions_of := (calculate_star_positions transform_to_altaz).

(** On a dictionary, the loop maps every item to its position, in order. *)
Lemma calculate_star_positions_map self clock stars time :
  NoDup (keys stars) ->
  positions_of self clock stars time
  = map (fun '(star_id, star_data) =>
           (star_id,
            star_position' self clock (time_or_now time clock) star_data))
        stars.
Proof.
  intros Hnd. unfold calculate_star_positions.
  rewrite (fold_dict_set Z.eqb Zeqb_spec
             (star_position' self clock (time_or_now time clock)));
    [reflexivity | exact Hnd].
Qed.

Lemma star_position_fields self clock t sd :
  ra (star_position' self clock t sd) = sd_ra sd
  /\ dec (star_position' self clock t sd) = sd_dec sd
  /\ (altitude (star_position' self clock t sd),
      azimuth (star_position' self clock t sd))
     = celestial_to_horizontal transform_to_altaz self clock
         (sd_ra sd) (sd_dec sd) (Some t)
  /\ magnitude (star_position' self clock t sd)
     = match sd_magnitude sd with Some m => m | None => 5 end
  /\ visible (star_position' self clock t sd)
     = Rgtb (altitude (star_position' self clock t sd)) 0.
Proof.
  unfold star_position.
  destruct (celestial_to_horizontal _ _ _ _ _ _) as [alt az]. simpl.
  repeat split; reflexivity.
Qed.

Lemma dict_get_positions self clock stars time star_id :
  NoDup (keys stars) ->
  dict_get Z.eqb (positions_of self clock stars time) star_id
  = option_map (star_position' self clock (time_or_now time clock))
      (dict_get Z.eqb stars star_id).
Proof.
  intros Hnd. rewrite calculate_star_positions_map by exact Hnd.
  apply dict_get_map_values.
Qed.
End CalculatorFacts.

(** C10: on a dictionary of star records the result has the keys of the
    input, in the same order (stars below the horizon included); the entry
    of a star carries the star's ra and dec, the transformed altitude and
    azimuth, the star's magnitude or 5.0 when the record has none, and
    visible exactly when the altitude is above 0. *)
Theorem calculate_star_positions_entries :
  forall (Instant : Type)
         (transform_to_altaz : R -> R -> R -> Instant -> R -> R -> R * R)
         (self : SkyCalculator) (clock : Instant)
         (stars : list (Z * StarData)) (time : option Instant),
    NoDup (keys stars) ->
    keys (calculate_star_positions transform_to_altaz self clock stars time)
    = keys stars
    /\ forall star_id : Z,
         match dict_get Z.eqb stars star_id with
         | None =>
             dict_get Z.eqb
               (calculate_star_positions transform_to_altaz self clock stars time)
               star_id = None
         | Some star_data =>
             exists p : StarPosition,
               dict_get Z.eqb
                 (calculate_star_positions transform_to_altaz self clock stars time)
                 star_id = Some p
               /\ ra p = sd_ra star_data
               /\ dec p = sd_dec star_data
               /\ (altitude p, azimuth p)
                  = celestial_to_horizontal transform_to_altaz self clock
                      (sd_ra star_data) (sd_dec star_data)
                      (Some (time_or_now time clock))
               /\ magnitude p
                  = match sd_magnitude star_data with Some m => m | None => 5 end
               /\ (visible p = true <-> altitude p > 0)
         end.
Proof.
  intros Instant T self clock stars time Hnd. split.
  - rewrite calculate_star_positions_map by exact Hnd.
    apply keys_map_values.
  - intros star_id.
    rewrite (dict_get_positions T self clock stars time star_id Hnd).
    destruct (dict_get Z.eqb stars star_id) as [sd|]; simpl; [|reflexivity].
    eexists. split; [reflexivity|].
    destruct (star_position_fields T self clock (time_or_now time clock) sd)
      as (Hra & Hdec & Haz & Hmag & Hvis).
    repeat (split; [assumption|]).
    rewrite Hvis. apply Rgtb_true.
Qed.

(** ** Drawing stars *)

Lemma draw_star_cases self ax item :
  draw_star self ax item
  = if star_drawnb self (snd item)
    then add_artist ax (star_marker self (snd item))
    else ax.
Proof.
  destruct item as [star_id p].
  unfold draw_star, star_drawnb, star_marker, norm2. simpl.
  destruct (visible p); simpl; [|reflexivity].
  match goal with |- context [Rgtb ?a 4] => destruct (Rgtb a 4) end;
    reflexivity.
Qed.

Lemma draw_stars_artists self ax star_positions :
  artists (draw_stars self ax star_positions)
  = artists ax
    ++ map (star_marker self) (filter (star_drawnb self) (map snd star_positions)).
Proof.
  unfold draw_stars. revert ax.
  induction star_positions as [|item l IH]; intros ax; simpl.
  - now rewrite app_nil_r.
  - rewrite IH, draw_star_cases.
    destruct (star_drawnb self (snd item)); simpl; [|reflexivity].
    now rewrite <- app_assoc.
Qed.

Lemma star_drawnb_true self p :
  star_drawnb self p = true
  <-> visible p = true
      /\ norm2 (project_star_position self (altitude p) (azimuth p)) <= 4.
Proof.
  unfold star_drawnb.
  rewrite andb_true_iff, negb_true_iff, Rgtb_false. tauto.
Qed.

(** C2: the markers [draw_stars] adds for the positions computed from a
    catalog are, in catalog order, those of the stars whose altitude is
    above 0 and whose projected point has x*x + y*y <= 4; a star failing
    either test adds nothing, and the loop goes on. *)
Theorem draw_stars_visibility :
  forall (Instant : Type)
         (transform_to_altaz : R -> R -> R -> Instant -> R -> R -> R * R)
         (renderer : SkyRenderer) (calc : SkyCalculator) (clock : Instant)
         (stars : list (Z * StarData)) (time : option Instant) (ax : Axes),
    NoDup (keys stars) ->
    artists
      (draw_stars renderer ax
         (calculate_star_positions transform_to_altaz calc clock stars time))
    = artists ax
      ++ map (star_marker renderer)
           (filter (star_drawnb renderer)
              (map (fun item =>
                      star_position transform_to_altaz calc clock
                        (time_or_now time clock) (snd item))
                 stars))
    /\ forall star_data : StarData,
         star_drawnb renderer
           (star_position transform_to_altaz calc clock
              (time_or_now time clock) star_data) = true
         <-> fst (celestial_to_horizontal transform_to_altaz calc clock
                    (sd_ra star_data) (sd_dec star_data)
                    (Some (time_or_now time clock))) > 0
             /\ norm2
                  (project_star_position renderer
                     (fst (celestial_to_horizontal transform_to_altaz calc clock
                             (sd_ra star_data) (sd_dec star_data)
                             (Some (time_or_now time clock))))
                     (snd (celestial_to_horizontal transform_to_altaz calc clock
                             (sd_ra star_data) (sd_dec star_data)
                             (Some (time_or_now time clock))))) <= 4.
Proof.
  intros Instant T renderer calc clock stars time ax Hnd. split.
  - rewrite draw_stars_artists, calculate_star_positions_map by exact Hnd.
    do 3 f_equal. rewrite map_map. apply map_ext. now intros [star_id sd].
  - intros sd. rewrite star_drawnb_true.
    destruct (star_position_fields T calc clock (time_or_now time clock) sd)
      as (_ & _ & Haz & _ & Hvis).
    rewrite Hvis, Rgtb_true, <- Haz. simpl. tauto.
Qed.

(** ** Drawing constellation lines *)

Lemma draw_line_cases self star_positions ax line :
  draw_line self star_positions ax line
  = match edge_artist self star_positions line with
    | Some a => add_artist ax a
    | None => ax
    end.
Proof.
  destruct line as [star1_id star2_id].
  unfold draw_line, edge_artist, segment. simpl.
  destruct (dict_get Z.eqb star_positions star1_id) as [star1|];
    [|reflexivity].
  destruct (dict_get Z.eqb star_positions star2_id) as [star2|];
    [|reflexivity].
  now destruct (visible star1 && visible star2).
Qed.

Lemma draw_lines_artists self star_positions lines ax :
  artists (fold_left (draw_line self star_positions) lines ax)
  = artists ax
    ++ flat_map (fun line => option_list (edge_artist self star_positions line))
         lines.
Proof.
  revert ax. induction lines as [|line lines IH]; intros ax; simpl.
  - now rewrite app_nil_r.
  - rewrite IH, draw_line_cases.
    destruct (edge_artist self star_positions line); simpl; [|reflexivity].
    now rewrite <- app_assoc.
Qed.

Lemma draw_constellation_lines_artists self ax star_positions catalog :
  artists (draw_constellation_lines self ax star_positions catalog)
  = artists ax
    ++ flat_map (fun line => option_list (edge_artist self star_positions line))
         (all_lines catalog).
Proof.
  unfold draw_constellation_lines, all_lines.
  generalize (get_all_constellations catalog) as names. intros names.
  revert ax. induction names as [|name names IH]; intros ax; simpl.
  - now rewrite app_nil_r.
  - rewrite IH, draw_lines_artists, flat_map_app. now rewrite <- app_assoc.
Qed.

Lemma edge_artist_Some self star_positions star1_id star2_id :
  edge_artist self star_positions (star1_id, star2_id) <> None
  <-> exists star1 star2,
        dict_get Z.eqb star_positions star1_id = Some star1
        /\ dict_get Z.eqb star_positions star2_id = Some star2
        /\ visible star1 = true /\ visible star2 = true.
Proof.
  unfold edge_artist. simpl.
  destruct (dict_get Z.eqb star_positions star1_id) as [star1|].
  - destruct (dict_get Z.eqb star_positions star2_id) as [star2|].
    + destruct (visible star1) eqn:V1, (visible star2) eqn:V2; simpl;
        split; try congruence;
        try (intros _; exists star1, star2; now repeat split);
        intros (s1 & s2 & [= <-] & [= <-] & E1 & E2); congruence.
    + split; [congruence | intros (s1 & s2 & _ & E & _); discriminate].
  - split; [congruence | intros (s1 & s2 & E & _); discriminate].
Qed.

(** With distinct constellation names, the lines looked up by name are the
    catalog's own line lists, one constellation after the other. *)
Lemma all_lines_catalog catalog :
  NoDup (keys (constellations catalog)) ->
  all_lines catalog
  = flat_map (fun item => match lines (snd item) with Some l => l | None => [] end)
      (constellations catalog).
Proof.
  intros Hnd. unfold all_lines, get_all_constellations, keys.
  rewrite !flat_map_concat_map, map_map. f_equal.
  apply map_ext_in.
  intros [name c] Hin. unfold get_constellation_lines. simpl.
  now rewrite (dict_get_In String.eqb String.eqb_spec _ name c Hnd Hin).
Qed.

(** C3: over the positions computed from a catalog, the segments
    [draw_constellation_lines] adds are, in order, those of the catalog's
    lines whose two star ids are both keys of the catalog and both have
    altitude above 0; any other line (an unknown id, an endpoint on or below
    the horizon) adds nothing and the loops go on. *)
Theorem draw_constellation_lines_edges :
  forall (Instant : Type)
         (transform_to_altaz : R -> R -> R -> Instant -> R -> R -> R * R)
         (renderer : SkyRenderer) (calc : SkyCalculator) (clock : Instant)
         (catalog : StarCatalog) (time : option Instant) (ax : Axes),
    NoDup (keys (stars catalog)) ->
    NoDup (keys (constellations catalog)) ->
    artists
      (draw_constellation_lines renderer ax
         (calculate_star_positions transform_to_altaz calc clock
            (get_all_stars catalog) time)
         catalog)
    = artists ax
      ++ flat_map
           (fun line =>
              option_list
                (edge_artist renderer
                   (calculate_star_positions transform_to_altaz calc clock
                      (get_all_stars catalog) time)
                   line))
           (flat_map
              (fun item => match lines (snd item) with Some l => l | None => [] end)
              (constellations catalog))
    /\ (forall star1_id star2_id : Z,
          edge_artist renderer
            (calculate_star_positions transform_to_altaz calc clock
               (get_all_stars catalog) time)
            (star1_id, star2_id) <> None
          <-> exists star1 star2 : StarData,
                dict_get Z.eqb (stars catalog) star1_id = Some star1
                /\ dict_get Z.eqb (stars catalog) star2_id = Some star2
                /\ fst (celestial_to_horizontal transform_to_altaz calc clock
                          (sd_ra star1) (sd_dec star1)
                          (Some (time_or_now time clock))) > 0
                /\ fst (celestial_to_horizontal transform_to_altaz calc clock
                          (sd_ra star2) (sd_dec star2)
                          (Some (time_or_now time clock))) > 0)
    /\ (forall (line : Z * Z) (a : Artist),
          edge_artist renderer
            (calculate_star_positions transform_to_altaz calc clock
               (get_all_stars catalog) time)
            line = Some a ->
          exists xdata ydata color linewidth alpha,
            a = PlotLine xdata ydata color linewidth alpha).
Proof.
  intros Instant T renderer calc clock catalog time ax Hstars Hnames.
  unfold get_all_stars.
  split; [|split].
  - rewrite draw_constellation_lines_artists.
    now rewrite (all_lines_catalog catalog Hnames).
  - intros s1 s2. rewrite edge_artist_Some.
    rewrite !(dict_get_positions T calc clock (stars catalog) time _ Hstars).
    assert (Hvis : forall sd,
              visible (star_position T calc clock (time_or_now time clock) sd)
              = true
              <-> fst (celestial_to_horizontal T calc clock (sd_ra sd) (sd_dec sd)
                         (Some (time_or_now time clock))) > 0).
    { intros sd.
      destruct (star_position_fields T calc clock (time_or_now time clock) sd)
        as (_ & _ & Haz & _ & Hv).
      rewrite Hv, Rgtb_true, <- Haz. simpl. tauto. }
    split.
    + intros (p1 & p2 & E1 & E2 & V1 & V2).
      destruct (dict_get Z.eqb (stars catalog) s1) as [sd1|]; [|discriminate].
      destruct (dict_get Z.eqb (stars catalog) s2) as [sd2|]; [|discriminate].
      simpl in E1, E2. injection E1 as <-. injection E2 as <-.
      exists sd1, sd2. repeat split; try reflexivity; now apply Hvis.
    + intros (sd1 & sd2 & E1 & E2 & A1 & A2).
      rewrite E1, E2. simpl.
      eexists. eexists. repeat split; try reflexivity; now apply Hvis.
  - intros [s1 s2] a. unfold edge_artist, segment. simpl.
    destruct (dict_get Z.eqb _ s1) as [p1|]; [|discriminate].
    destruct (dict_get Z.eqb _ s2) as [p2|]; [|discriminate].
    destruct (visible p1 && visible p2); [|discriminate].
    intros [= <-]. now repeat eexists.
Qed.

(** ** The whole chart *)

Lemma string_app_assoc (a b c : string) :
  ((a ++ b) ++ c)%string = (a ++ (b ++ c))%string.
Proof. induction a as [|x a IH]; simpl; [reflexivity | now rewrite IH]. Qed.

(** The three artists [add_title_and_info] appends, the title first. *)
Lemma add_title_and_info_artists
    {Instant : Type} (strftime : Instant -> string -> string)
    (format_2f : R -> string) self ax latitude longitude
    (time : Instant) city_name :
  artists
    (add_title_and_info strftime format_2f self ax latitude longitude time
       city_name)
  = artists ax
    ++ [ TextArtist 0 (23 / 10)
           (title_prefix format_2f latitude longitude city_name
              ++ strftime time "%Y-%m-%d %H:%M UTC"%string)
           "center" "top" (cardinal_text (colors self)) 14
           (Some "bold"%string);
         ScatterPoint 0 0 20 (cardinal_text (colors self)) "+" (8 / 10) None;
         TextArtist 0 (- (1 / 10)) "Zenith" "center" "top"
           (cardinal_text (colors self)) 10 None ].
Proof.
  unfold add_title_and_info, title_prefix.
  cbn [add_artist artists].
  rewrite <- !app_assoc. cbn [app].
  rewrite !string_app_assoc. reflexivity.
Qed.

Lemma append_inj_l (p s1 s2 : string) :
  (p ++ s1)%string = (p ++ s2)%string -> s1 = s2.
Proof.
  induction p as [|c p IH]; simpl; [tauto|].
  intros [= H]. now apply IH.
Qed.

(** Without a supplied instant the chart does read the clock: two runs whose
    clock readings format differently differ in their title. *)
Lemma render_sky_default_time_reads_clock
    {Instant : Type}
    (transform_to_altaz : R -> R -> R -> Instant -> R -> R -> R * R)
    (strftime : Instant -> string -> string) (format_2f : R -> string)
    (self : SkyRenderer) (clock1 clock2 : Instant) (loaded : StarCatalog)
    (latitude longitude : R) (city_name save_path : option string) :
  strftime clock1 "%Y-%m-%d %H:%M UTC"%string
  <> strftime clock2 "%Y-%m-%d %H:%M UTC"%string ->
  render_sky transform_to_altaz strftime format_2f self clock1 loaded
    latitude longitude None city_name save_path
  <> render_sky transform_to_altaz strftime format_2f self clock2 loaded
       latitude longitude None city_name save_path.
Proof.
  intros Hfmt Heq. apply Hfmt.
  apply (f_equal (fun r => nth 2 (rev (artists (snd (fst r))))
                             (PlotLine [] [] EmptyString 0 0))) in Heq.
  unfold render_sky in Heq.
  cbn [create_figure fst snd time_or_now] in Heq.
  rewrite !add_title_and_info_artists, !rev_app_distr in Heq.
  cbn [rev app nth] in Heq.
  injection Heq as Htitle.
  now apply append_inj_l in Htitle.
Qed.

(** ** The concrete inputs are dictionaries *)

Ltac nodup_keys :=
  repeat (constructor; [simpl; intuition congruence|]); constructor.

Lemma sample_stars_NoDup : NoDup (keys sample_stars).
Proof. unfold keys, sample_stars. cbn [map fst]. nodup_keys. Qed.

Lemma create_sample_stars_empty :
  create_sample_stars []
  = map (fun '(hip_id, data) =>
           (hip_id, mkStarData (sd_ra data) (sd_dec data) (sd_magnitude data)
                      (Some hip_id)))
        sample_stars.
Proof. reflexivity. Qed.

Lemma fallback_catalog_NoDup :
  NoDup (keys (stars fallback_catalog))
  /\ NoDup (keys (constellations fallback_catalog)).
Proof.
  split.
  - change (keys (stars fallback_catalog)) with (keys sample_stars).
    apply sample_stars_NoDup.
  - unfold keys, fallback_catalog, load_constellation_data.
    cbn [map fst constellations]. nodup_keys.
Qed.

Lemma two_star_catalog_NoDup :
  NoDup (keys (stars two_star_catalog))
  /\ NoDup (keys (constellations two_star_catalog)).
Proof.
  split; unfold keys, two_star_catalog, two_stars;
    cbn [map fst stars constellations]; nodup_keys.
Qed.

Lemma Rgtb_10_0 : Rgtb 10 0 = true.
Proof. apply Rgtb_true. lra. Qed.

Lemma Rgtb_m5_0 : Rgtb (-5) 0 = false.
Proof. apply Rgtb_false. lra. Qed.

Example two_star_positions :
  calculate_star_positions polar_altaz polar_calc 0%nat two_stars None
  = [(1%Z, position_1); (2%Z, position_2)].
Proof.
  unfold position_1, position_2.
  rewrite <- Rgtb_10_0, <- Rgtb_m5_0. reflexivity.
Qed.

Lemma norm2_project_star_position self altitude azimuth :
  norm2 (project_star_position self altitude azimuth)
  = projected_radius altitude * projected_radius altitude.
Proof. unfold project_star_position. apply norm2_polar. Qed.

Lemma projected_radius_pos altitude :
  -90 < altitude < 90 -> 0 < projected_radius altitude.
Proof.
  intros [Hlo Hhi]. unfold projected_radius, Np.radians.
  pose proof PI_RGT_0 as Hpi.
  apply tan_gt_0; nra.
Qed.

(** A star above the horizon projects inside the unit circle, hence inside
    the plotted area: the second test of [draw_stars] never rejects it. *)
Lemma visible_star_within_bound self altitude azimuth :
  0 < altitude <= 90 ->
  norm2 (project_star_position self altitude azimuth) < 1.
Proof.
  intros Halt. rewrite norm2_project_star_position.
  pose proof (projected_radius_above_horizon altitude Halt) as Hlt.
  destruct (Req_dec altitude 90) as [->|Hne].
  - rewrite projected_radius_zenith. lra.
  - assert (0 < projected_radius altitude) by (apply projected_radius_pos; lra).
    nra.
Qed.

Example two_star_markers :
  artists
    (draw_stars default_renderer (snd (create_figure default_renderer))
       [(1%Z, position_1); (2%Z, position_2)])
  = [star_marker default_renderer position_1].
Proof.
  rewrite draw_stars_artists. cbn [map snd filter create_figure artists app].
  assert (H1 : star_drawnb default_renderer position_1 = true).
  { apply star_drawnb_true. split; [reflexivity|].
    left. eapply Rlt_trans; [apply visible_star_within_bound|]; simpl; lra. }
  rewrite H1. reflexivity.
Qed.

(** The specification's example: the line from the star at altitude 10 to
    the star at altitude -5 is not drawn, nor is the line to a star the
    catalog does not have; the line between visible stars is. *)
Example two_star_lines :
  artists
    (draw_constellation_lines default_renderer
       (snd (create_figure default_renderer))
       [(1%Z, position_1); (2%Z, position_2)] two_star_catalog)
  = [segment default_renderer position_1 position_1].
Proof. reflexivity. Qed.

(** ** The theorems at the two-star example *)

(** The entries theorem at the two-star dictionary: both keys are kept, and
    the entry of the second star, which is below the horizon and has no
    magnitude, carries magnitude 5 and is marked not visible. *)
Lemma calculate_star_positions_entries_witness :
  keys (calculate_star_positions polar_altaz polar_calc 0%nat two_stars None)
  = [1%Z; 2%Z]
  /\ exists p : StarPosition,
       dict_get Z.eqb
         (calculate_star_positions polar_altaz polar_calc 0%nat two_stars None)
         2%Z = Some p
       /\ dec p = -5 /\ magnitude p = 5 /\ visible p = false.
Proof.
  destruct (calculate_star_positions_entries nat polar_altaz polar_calc 0%nat
              two_stars None (proj1 two_star_catalog_NoDup)) as [Hkeys Hentry].
  split; [exact Hkeys|].
  specialize (Hentry 2%Z).
  change (dict_get Z.eqb two_stars 2%Z)
    with (Some (mkStarData 90 (-5) None None)) in Hentry.
  cbv beta iota in Hentry.
  destruct Hentry as (p & Hp & _ & Hdec & Haltaz & Hmag & Hvis).
  exists p. repeat (split; [assumption|]).
  destruct (visible p); [|reflexivity].
  exfalso.
  assert (Halt : altitude p > 0) by now apply Hvis.
  change (celestial_to_horizontal polar_altaz polar_calc 0%nat
            (sd_ra (mkStarData 90 (-5) None None))
            (sd_dec (mkStarData 90 (-5) None None))
            (Some (time_or_now None 0%nat)))
    with (-5, 90) in Haltaz.
  injection Haltaz as Ha _. lra.
Defined.

(** The visibility theorem at the two-star dictionary: one marker, that of
    the star at altitude 10. *)
Lemma draw_stars_visibility_witness :
  artists
    (draw_stars default_renderer (snd (create_figure default_renderer))
       (calculate_star_positions polar_altaz polar_calc 0%nat two_stars None))
  = [star_marker default_renderer
       (star_position polar_altaz polar_calc 0%nat 0%nat
          (mkStarData 0 10 (Some 2) (Some 1%Z)))].
Proof.
  destruct (draw_stars_visibility nat polar_altaz default_renderer polar_calc
              0%nat two_stars None (snd (create_figure default_renderer))
              (proj1 two_star_catalog_NoDup)) as [Hartists Hdrawn].
  rewrite Hartists.
  cbn [two_stars map snd filter time_or_now create_figure artists app].
  cbn [time_or_now] in Hdrawn.
  rewrite (proj2 (Hdrawn (mkStarData 0 10 (Some 2) (Some 1%Z)))).
  - destruct (star_drawnb default_renderer
                (star_position polar_altaz polar_calc 0%nat 0%nat
                   (mkStarData 90 (-5) None None))) eqn:E; [|reflexivity].
    apply (Hdrawn (mkStarData 90 (-5) None None)) in E.
    destruct E as [E _]. simpl in E. lra.
  - cbn [celestial_to_horizontal polar_altaz fst snd sd_ra sd_dec time_or_now].
    split; [lra|].
    left. eapply Rlt_trans; [apply visible_star_within_bound|]; lra.
Defined.

(** The edge theorem at the two-star catalog: of the lines (1,2), (1,3) and
    (1,1) only the last is drawn. *)
Lemma draw_constellation_lines_edges_witness :
  artists
    (draw_constellation_lines default_renderer
       (snd (create_figure default_renderer))
       (calculate_star_positions polar_altaz polar_calc 0%nat
          (get_all_stars two_star_catalog) None)
       two_star_catalog)
  = [segment default_renderer position_1 position_1].
Proof.
  destruct (draw_constellation_lines_edges nat polar_altaz default_renderer
              polar_calc 0%nat two_star_catalog None
              (snd (create_figure default_renderer))
              (proj1 two_star_catalog_NoDup) (proj2 two_star_catalog_NoDup))
    as (Hartists & Hdrawn & _).
  rewrite Hartists.
  change (get_all_stars two_star_catalog) with two_stars in *.
  cbn [two_star_catalog constellations flat_map lines snd app create_figure
       artists].
  destruct (edge_artist default_renderer
              (calculate_star_positions polar_altaz polar_calc 0%nat two_stars
                 None) (1%Z, 2%Z)) eqn:E12.
  { exfalso.
    assert (H : edge_artist default_renderer
                  (calculate_star_positions polar_altaz polar_calc 0%nat
                     two_stars None) (1%Z, 2%Z) <> None) by congruence.
    apply Hdrawn in H. destruct H as (s1 & s2 & _ & E2 & _ & A2).
    injection E2 as <-. simpl in A2. lra. }
  destruct (edge_artist default_renderer
              (calculate_star_positions polar_altaz polar_calc 0%nat two_stars
                 None) (1%Z, 3%Z)) eqn:E13.
  { exfalso.
    assert (H : edge_artist default_renderer
                  (calculate_star_positions polar_altaz polar_calc 0%nat
                     two_stars None) (1%Z, 3%Z) <> None) by congruence.
    apply Hdrawn in H. destruct H as (s1 & s2 & _ & E2 & _). discriminate. }
  rewrite two_star_positions. reflexivity.
Defined.

(** * Further properties of the code *)

(** ** The projection: order, culling and orientation *)

Lemma projected_radius_decreasing a1 a2 :
  -90 < a1 -> a1 < a2 -> a2 <= 90 ->
  0 <= projected_radius a2 < projected_radius a1.
Proof.
  intros H1 H12 H2.
  pose proof PI_RGT_0 as Hpi.
  split.
  - destruct (Req_dec a2 90) as [->|Hne].
    + rewrite projected_radius_zenith. lra.
    + left. apply projected_radius_pos. lra.
  - unfold projected_radius, Np.radians. apply tan_increasing; nra.
Qed.

(** X1: a higher altitude lands strictly nearer the centre of the chart,
    whatever the two azimuths are. *)
Theorem project_to_stereographic_radius_decreasing :
  forall (self : SkyCalculator) (alt1 alt2 az1 az2 : R),
    -90 < alt1 -> alt1 < alt2 -> alt2 <= 90 ->
    norm2 (project_to_stereographic self alt2 az2)
    < norm2 (project_to_stereographic self alt1 az1).
Proof.
  intros self a1 a2 z1 z2 H1 H12 H2.
  rewrite !norm2_project_to_stereographic.
  pose proof (projected_radius_decreasing a1 a2 H1 H12 H2). nra.
Qed.

Lemma project_to_stereographic_radius_decreasing_witness :
  norm2 (project_to_stereographic polar_calc 60 0)
  < norm2 (project_to_stereographic polar_calc 30 180).
Proof.
  apply project_to_stereographic_radius_decreasing; lra.
Defined.

(** X2: between nadir and zenith, the side of the horizon circle a point falls
    on is the sign of its altitude: inside exactly when above the horizon,
    on the circle exactly at altitude 0, outside exactly when below. *)
Theorem project_to_stereographic_horizon_sides :
  forall (self : SkyCalculator) (altitude azimuth : R),
    -90 < altitude -> altitude <= 90 ->
    (0 < altitude
       <-> norm2 (project_to_stereographic self altitude azimuth) < 1)
    /\ (altitude = 0
       <-> norm2 (project_to_stereographic self altitude azimuth) = 1)
    /\ (altitude < 0
       <-> norm2 (project_to_stereographic self altitude azimuth) > 1).
Proof.
  intros self alt az Hlo Hhi.
  rewrite norm2_project_to_stereographic.
  assert (Hcases : (0 < alt /\ projected_radius alt * projected_radius alt < 1)
                   \/ (alt = 0 /\ projected_radius alt * projected_radius alt = 1)
                   \/ (alt < 0 /\ projected_radius alt * projected_radius alt > 1)).
  { destruct (Rtotal_order alt 0) as [Hneg|[Hz|Hpos]].
    - right; right. split; [exact Hneg|].
      pose proof (projected_radius_below_horizon alt (conj Hlo Hneg)). nra.
    - right; left. split; [exact Hz|].
      rewrite Hz, projected_radius_horizon. ring.
    - left. split; [exact Hpos|].
      pose proof (projected_radius_decreasing 0 alt ltac:(lra) Hpos Hhi) as H.
      rewrite projected_radius_horizon in H. nra. }
  destruct Hcases as [[H1 H2]|[[H1 H2]|[H1 H2]]];
    repeat split; intros; lra.
Qed.

Lemma project_to_stereographic_horizon_sides_witness :
  0 < 45 <-> norm2 (project_to_stereographic polar_calc 45 270) < 1.
Proof.
  refine (proj1 (project_to_stereographic_horizon_sides polar_calc 45 270 _ _));
    lra.
Defined.

Lemma radians_90 : Np.radians 90 = PI / 2.
Proof. unfold Np.radians. field. Qed.

Lemma radians_270 : Np.radians 270 = 3 * (PI / 2).
Proof. unfold Np.radians. field. Qed.

Lemma radians_0 : Np.radians 0 = 0.
Proof. unfold Np.radians. ring. Qed.

Lemma radians_plus_360 az : Np.radians (az + 360) = Np.radians az + 2 * INR 1 * PI.
Proof. unfold Np.radians. simpl. field. Qed.

(** X3: orientation of the chart: north (azimuth 0) is up, east (90) is to the
    right, south (180) down and west (270) to the left, each at the radius
    of the altitude; an azimuth and the same azimuth plus 360 give one
    point. *)
Theorem project_to_stereographic_orientation :
  forall (self : SkyCalculator) (altitude : R),
    project_to_stereographic self altitude 0 = (0, projected_radius altitude)
    /\ project_to_stereographic self altitude 90
       = (projected_radius altitude, 0)
    /\ project_to_stereographic self altitude 180
       = (0, - projected_radius altitude)
    /\ project_to_stereographic self altitude 270
       = (- projected_radius altitude, 0)
    /\ (forall azimuth,
          project_to_stereographic self altitude (azimuth + 360)
          = project_to_stereographic self altitude azimuth).
Proof.
  intros self alt. rewrite !project_to_stereographic_polar.
  rewrite radians_0, radians_90, radians_180, radians_270.
  rewrite sin_0, cos_0, sin_PI2, cos_PI2, sin_PI, cos_PI, sin_3PI2, cos_3PI2.
  repeat split; try (f_equal; ring).
  intros az. rewrite !project_to_stereographic_polar, radians_plus_360.
  now rewrite sin_period, cos_period.
Qed.

(** ** The horizon circle is a closed polyline *)

Lemma nth_error_closed_samples n i :
  (i < n)%nat ->
  nth_error (closed_samples n) i = Some (360 * INR i / INR (n - 1)).
Proof.
  intros Hi. unfold closed_samples.
  rewrite nth_error_map, nth_error_seq.
  destruct (Nat.ltb_spec i n); [reflexivity | lia].
Qed.

(** X4: both coordinate lists have [num_points] entries, and from two points on
    the polyline starts and ends at the north point (0, 1) of the horizon:
    the first and the last sample are the same point. *)
Theorem get_horizon_circle_closed_polyline :
  forall (self : SkyCalculator) (num_points : nat),
    (2 <= num_points)%nat ->
    List.length (fst (get_horizon_circle self num_points)) = num_points
    /\ List.length (snd (get_horizon_circle self num_points)) = num_points
    /\ nth_error (horizon_points (get_horizon_circle self num_points)) 0
       = Some (0, 1)
    /\ nth_error (horizon_points (get_horizon_circle self num_points))
         (num_points - 1)
       = Some (0, 1).
Proof.
  intros self n Hn.
  assert (Hlen : List.length (closed_samples n) = n).
  { unfold closed_samples. now rewrite length_map, length_seq. }
  split; [|split; [|split]].
  - rewrite get_horizon_circle_maps. simpl. now rewrite length_map.
  - rewrite get_horizon_circle_maps. simpl. now rewrite length_map.
  - rewrite horizon_points_map, nth_error_map,
      nth_error_closed_samples by lia.
    simpl option_map. f_equal.
    match goal with
    | |- project_to_stereographic _ _ ?a = _ =>
        replace a with 0 by (simpl; unfold Rdiv; ring)
    end.
    rewrite project_to_stereographic_polar, projected_radius_horizon,
      radians_0, sin_0, cos_0.
    f_equal; ring.
  - rewrite horizon_points_map, nth_error_map,
      nth_error_closed_samples by lia.
    simpl option_map. f_equal.
    assert (Hk : INR (n - 1) <> 0) by (apply not_0_INR; lia).
    match goal with
    | |- project_to_stereographic _ _ ?a = _ =>
        replace a with 360 by (now field)
    end.
    rewrite project_to_stereographic_polar, projected_radius_horizon,
      radians_360, sin_2PI, cos_2PI.
    f_equal; ring.
Qed.

Lemma get_horizon_circle_closed_polyline_witness :
  nth_error (horizon_points (get_horizon_circle polar_calc 360)) 359
  = Some (0, 1).
Proof.
  refine (proj2 (proj2 (proj2
            (get_horizon_circle_closed_polyline polar_calc 360 _)))).
  lia.
Defined.

(** ** The grid *)

Lemma project_horizon_cardinals self :
  project_to_stereographic self 0 0 = (0, 1)
  /\ project_to_stereographic self 0 90 = (1, 0)
  /\ project_to_stereographic self 0 180 = (0, -1)
  /\ project_to_stereographic self 0 270 = (-1, 0).
Proof.
  rewrite !project_to_stereographic_polar, projected_radius_horizon.
  rewrite radians_0, radians_90, radians_180, radians_270.
  rewrite sin_0, cos_0, sin_PI2, cos_PI2, sin_PI, cos_PI, sin_3PI2, cos_3PI2.
  repeat split; f_equal; ring.
Qed.

Lemma altitude_ring_radii :
  0 < projected_radius 60 /\ projected_radius 60 < projected_radius 30
  /\ projected_radius 30 < 1.
Proof.
  split; [apply projected_radius_pos; lra|].
  split; [apply projected_radius_decreasing; lra|].
  apply projected_radius_above_horizon; lra.
Qed.

Lemma add_artist_artists ax a : artists (add_artist ax a) = artists ax ++ [a].
Proof. reflexivity. Qed.

(** The label the grid loop adds for one cardinal direction. *)
Lemma cardinal_label self calc ax direction azimuth x y :
  project_to_stereographic calc 0 azimuth = (x, y) ->
  (let '(x, y) := project_to_stereographic calc 0 azimuth in
   let x := x * (11 / 10) in
   let y := y * (11 / 10) in
   add_artist ax
     (TextArtist x y direction "center" "center" (cardinal_text (colors self))
        12 (Some "bold"%string)))
  = add_artist ax
      (TextArtist (x * (11 / 10)) (y * (11 / 10)) direction "center" "center"
         (cardinal_text (colors self)) 12 (Some "bold"%string)).
Proof. intros ->. reflexivity. Qed.

Lemma add_artist_with_artists ax a : add_artist ax a = with_artists ax [a].
Proof. reflexivity. Qed.

Lemma with_artists_nil ax : with_artists ax [] = ax.
Proof. destruct ax. unfold with_artists. simpl. now rewrite app_nil_r. Qed.

Lemma with_artists_app ax l1 l2 :
  with_artists (with_artists ax l1) l2 = with_artists ax (l1 ++ l2).
Proof. unfold with_artists. simpl. now rewrite app_assoc. Qed.

Lemma draw_horizon_and_grid_with_artists self ax calc :
  draw_horizon_and_grid self ax calc = with_artists ax (grid_artists self).
Proof.
  destruct altitude_ring_radii as (H60 & H6030 & H30).
  destruct (project_horizon_cardinals calc) as (HN & HE & HS & HW).
  unfold draw_horizon_and_grid.
  cbn [fold_left get_cardinal_directions].
  fold (projected_radius 30). fold (projected_radius 60).
  destruct (Rlt_dec (projected_radius 30) 2) as [_|Hn]; [|exfalso; lra].
  destruct (Rlt_dec (projected_radius 60) 2) as [_|Hn]; [|exfalso; lra].
  rewrite (cardinal_label self calc _ _ _ _ _ HN).
  rewrite (cardinal_label self calc _ _ _ _ _ HE).
  rewrite (cardinal_label self calc _ _ _ _ _ HS).
  rewrite (cardinal_label self calc _ _ _ _ _ HW).
  rewrite !add_artist_with_artists, !with_artists_app. cbn [app].
  unfold grid_artists.
  replace (0 * (11 / 10)) with 0 by ring.
  replace (1 * (11 / 10)) with (11 / 10) by ring.
  replace (-1 * (11 / 10)) with (- (11 / 10)) by ring.
  reflexivity.
Qed.

(** X5: [draw_horizon_and_grid] always adds the same seven artists after those
    already on the axes: the horizon circle of radius 1, the dashed rings of
    altitude 30 and 60 (both strictly inside the horizon, the 60 ring inside
    the 30 ring, so the test [r < 2] never drops one), and the labels North
    at (0, 1.1), East at (1.1, 0), South at (0, -1.1), West at (-1.1, 0).
    Neither the calculator nor the limits of the axes play a part. *)
Theorem draw_horizon_and_grid_artists :
  forall (self : SkyRenderer) (ax : Axes) (sky_calc : SkyCalculator),
    artists (draw_horizon_and_grid self ax sky_calc)
    = artists ax ++ grid_artists self
    /\ xlim (draw_horizon_and_grid self ax sky_calc) = xlim ax
    /\ ylim (draw_horizon_and_grid self ax sky_calc) = ylim ax
    /\ 0 < projected_radius 60 < projected_radius 30
    /\ projected_radius 30 < 1.
Proof.
  intros self ax calc.
  destruct altitude_ring_radii as (H60 & H6030 & H30).
  rewrite draw_horizon_and_grid_with_artists.
  cbn [with_artists artists xlim ylim]. repeat split; assumption.
Qed.

(** ** Marker sizes for any size settings *)

Lemma clamp_range x lo hi : lo <= hi -> lo <= clamp x lo hi <= hi.
Proof.
  intros Hle. unfold clamp. split.
  - apply Rmax_l.
  - apply Rmax_lub; [exact Hle | apply Rmin_r].
Qed.

(** X6: whatever sizes the renderer is set up with, as long as the magnitude
    range is positive and [min_size <= max_size]: every magnitude gets a size
    between [min_size] and [max_size], and a fainter star (larger magnitude)
    never gets a larger size. *)
Theorem calculate_star_size_bounds :
  forall (self : SkyRenderer) (m1 m2 : R),
    0 < magnitude_range (star_sizes self) ->
    min_size (star_sizes self) <= max_size (star_sizes self) ->
    min_size (star_sizes self) <= calculate_star_size self m1
                               <= max_size (star_sizes self)
    /\ (m1 <= m2 -> calculate_star_size self m2 <= calculate_star_size self m1).
Proof.
  intros self m1 m2 Hrange Hsizes.
  rewrite !calculate_star_size_spec. unfold magnitudeToSize_spec.
  set (c := magnitude_range (star_sizes self)) in *.
  set (lo := min_size (star_sizes self)) in *.
  set (hi := max_size (star_sizes self)) in *.
  assert (Hratio : forall m, 0 <= clamp m 0 c / c <= 1).
  { intros m. pose proof (clamp_range m 0 c ltac:(lra)) as [H0 H1].
    split.
    - apply Rmult_le_pos; [exact H0 | left; now apply Rinv_0_lt_compat].
    - apply (Rmult_le_reg_r c); [exact Hrange|].
      unfold Rdiv. rewrite Rmult_assoc, Rinv_l by lra. lra. }
  split.
  - pose proof (Hratio m1). nra.
  - intros Hle.
    assert (clamp m1 0 c / c <= clamp m2 0 c / c).
    { apply Rmult_le_compat_r;
        [left; now apply Rinv_0_lt_compat | now apply clamp_mono]. }
    nra.
Qed.

Lemma calculate_star_size_bounds_witness :
  1 <= calculate_star_size default_renderer (-1) <= 8.
Proof.
  refine (proj1 (calculate_star_size_bounds default_renderer (-1) 7 _ _));
    simpl; lra.
Defined.

(** ** Stars and lines for altitudes up to the zenith *)

(** For a position whose flag is its altitude test and whose altitude does
    not exceed 90, the bound test of [draw_stars] adds nothing to the
    visibility test. *)
Lemma star_drawnb_physical self p :
  visible p = Rgtb (altitude p) 0 -> altitude p <= 90 ->
  star_drawnb self p = visible p.
Proof.
  intros Hvis Hle. unfold star_drawnb.
  destruct (visible p) eqn:V; [|reflexivity].
  symmetry in Hvis. apply Rgtb_true in Hvis.
  simpl. apply negb_true_iff, Rgtb_false.
  left. eapply Rlt_trans; [apply visible_star_within_bound|]; lra.
Qed.

Section PhysicalAltitudes.
Context {Instant : Type}.
Variable transform_to_altaz : R -> R -> R -> Instant -> R -> R -> R * R.
Variables (calc : SkyCalculator) (clock : Instant) (time : option Instant).
Variable stars : list (Z * StarData).
Hypothesis stars_dict : NoDup (keys stars).
Hypothesis altitudes_le_90 :
  forall star_id star_data,
    In (star_id, star_data) stars ->
    fst (celestial_to_horizontal transform_to_altaz calc clock
           (sd_ra star_data) (sd_dec star_data)
           (Some (time_or_now time clock))) <= 90.

Lemma positions_physical p :
  In p (map snd (calculate_star_positions transform_to_altaz calc clock stars time)) ->
  visible p = Rgtb (altitude p) 0 /\ altitude p <= 90.
Proof.
  rewrite calculate_star_positions_map by exact stars_dict.
  rewrite map_map, in_map_iff.
  intros [[star_id sd] [<- Hin]]. cbn [snd].
  destruct (star_position_fields transform_to_altaz calc clock
              (time_or_now time clock) sd) as (_ & _ & Haz & _ & Hvis).
  split; [exact Hvis|].
  pose proof (altitudes_le_90 star_id sd Hin) as Hle.
  rewrite <- Haz in Hle. exact Hle.
Qed.

Lemma draw_stars_physical renderer ax :
  artists
    (draw_stars renderer ax
       (calculate_star_positions transform_to_altaz calc clock stars time))
  = artists ax
    ++ map (star_marker renderer)
         (filter visible
            (map snd
               (calculate_star_positions transform_to_altaz calc clock stars
                  time))).
Proof.
  rewrite draw_stars_artists. do 2 f_equal.
  apply filter_ext_in. intros p Hp.
  destruct (positions_physical p Hp). now apply star_drawnb_physical.
Qed.

Lemma visible_position_has_marker renderer ax star_id p :
  dict_get Z.eqb
    (calculate_star_positions transform_to_altaz calc clock stars time) star_id
  = Some p ->
  visible p = true ->
  In (star_marker renderer p)
    (artists
       (draw_stars renderer ax
          (calculate_star_positions transform_to_altaz calc clock stars time))).
Proof.
  intros Hget Hvis. rewrite draw_stars_physical.
  apply in_or_app. right. apply in_map. apply filter_In. split; [|exact Hvis].
  apply (dict_get_Some_In Z.eqb Zeqb_spec) in Hget.
  apply in_map_iff. now exists (star_id, p).
Qed.
End PhysicalAltitudes.

(** X7: when no star of the catalog is given an altitude above 90, the bound
    test of [draw_stars] never rejects a star: the markers drawn are exactly
    those of the entries marked visible, in catalog order. *)
Theorem draw_stars_bound_never_culls :
  forall (Instant : Type)
         (transform_to_altaz : R -> R -> R -> Instant -> R -> R -> R * R)
         (renderer : SkyRenderer) (calc : SkyCalculator) (clock : Instant)
         (stars : list (Z * StarData)) (time : option Instant) (ax : Axes),
    NoDup (keys stars) ->
    (forall star_id star_data,
        In (star_id, star_data) stars ->
        fst (celestial_to_horizontal transform_to_altaz calc clock
               (sd_ra star_data) (sd_dec star_data)
               (Some (time_or_now time clock))) <= 90) ->
    artists
      (draw_stars renderer ax
         (calculate_star_positions transform_to_altaz calc clock stars time))
    = artists ax
      ++ map (star_marker renderer)
           (filter visible
              (map snd
                 (calculate_star_positions transform_to_altaz calc clock stars
                    time))).
Proof.
  intros Instant T renderer calc clock stars time ax Hnd Hle.
  now apply draw_stars_physical.
Qed.

(** X8: under the same conditions no line is left dangling: each segment that
    [draw_constellation_lines] draws starts and ends at the coordinates of
    two star markers that [draw_stars] has drawn. *)
Theorem constellation_lines_end_on_drawn_stars :
  forall (Instant : Type)
         (transform_to_altaz : R -> R -> R -> Instant -> R -> R -> R * R)
         (renderer : SkyRenderer) (calc : SkyCalculator) (clock : Instant)
         (stars : list (Z * StarData)) (time : option Instant) (ax : Axes)
         (line : Z * Z) (a : Artist),
    NoDup (keys stars) ->
    (forall star_id star_data,
        In (star_id, star_data) stars ->
        fst (celestial_to_horizontal transform_to_altaz calc clock
               (sd_ra star_data) (sd_dec star_data)
               (Some (time_or_now time clock))) <= 90) ->
    edge_artist renderer
      (calculate_star_positions transform_to_altaz calc clock stars time) line
    = Some a ->
    exists x1 y1 s1 x2 y2 s2 : R,
      a = PlotLine [x1; x2] [y1; y2] (constellation_lines (colors renderer)) 1
            (7 / 10)
      /\ In (ScatterPoint x1 y1 s1 (stars_color (colors renderer)) "*" (9 / 10)
               (Some "none"%string))
           (artists
              (draw_stars renderer ax
                 (calculate_star_positions transform_to_altaz calc clock stars
                    time)))
      /\ In (ScatterPoint x2 y2 s2 (stars_color (colors renderer)) "*" (9 / 10)
               (Some "none"%string))
           (artists
              (draw_stars renderer ax
                 (calculate_star_positions transform_to_altaz calc clock stars
                    time))).
Proof.
  intros Instant T renderer calc clock stars time ax [id1 id2] a Hnd Hle.
  unfold edge_artist. cbn [fst snd].
  destruct (dict_get Z.eqb _ id1) as [p1|] eqn:E1; [|discriminate].
  destruct (dict_get Z.eqb _ id2) as [p2|] eqn:E2; [|discriminate].
  destruct (visible p1) eqn:V1, (visible p2) eqn:V2; try discriminate.
  cbn [andb]. intros [= <-].
  pose proof (visible_position_has_marker T calc clock time stars Hnd Hle
                renderer ax id1 p1 E1 V1) as M1.
  pose proof (visible_position_has_marker T calc clock time stars Hnd Hle
                renderer ax id2 p2 E2 V2) as M2.
  unfold star_marker in M1, M2. unfold segment.
  do 6 eexists. split; [reflexivity|]. split; [exact M1 | exact M2].
Qed.

Lemma two_stars_altitudes :
  forall star_id star_data,
    In (star_id, star_data) two_stars ->
    fst (celestial_to_horizontal polar_altaz polar_calc 0%nat
           (sd_ra star_data) (sd_dec star_data)
           (Some (time_or_now None 0%nat))) <= 90.
Proof.
  intros star_id sd [E|[E|[]]]; injection E as _ <-; simpl; lra.
Qed.

Lemma draw_stars_bound_never_culls_witness :
  artists
    (draw_stars default_renderer (snd (create_figure default_renderer))
       (calculate_star_positions polar_altaz polar_calc 0%nat two_stars None))
  = [star_marker default_renderer position_1].
Proof.
  rewrite (draw_stars_bound_never_culls nat polar_altaz default_renderer
             polar_calc 0%nat two_stars None
             (snd (create_figure default_renderer))
             (proj1 two_star_catalog_NoDup) two_stars_altitudes).
  rewrite two_star_positions. reflexivity.
Defined.

Lemma constellation_lines_end_on_drawn_stars_witness :
  exists x1 y1 s1 x2 y2 s2 : R,
    segment default_renderer position_1 position_1
    = PlotLine [x1; x2] [y1; y2]
        (constellation_lines (colors default_renderer)) 1 (7 / 10)
    /\ In (ScatterPoint x1 y1 s1 (stars_color (colors default_renderer)) "*"
             (9 / 10) (Some "none"%string))
         (artists
            (draw_stars default_renderer (snd (create_figure default_renderer))
               (calculate_star_positions polar_altaz polar_calc 0%nat two_stars
                  None)))
    /\ In (ScatterPoint x2 y2 s2 (stars_color (colors default_renderer)) "*"
             (9 / 10) (Some "none"%string))
         (artists
            (draw_stars default_renderer (snd (create_figure default_renderer))
               (calculate_star_positions polar_altaz polar_calc 0%nat two_stars
                  None))).
Proof.
  apply (constellation_lines_end_on_drawn_stars nat polar_altaz
           default_renderer polar_calc 0%nat two_stars None
           (snd (create_figure default_renderer)) (1%Z, 1%Z)
           (segment default_renderer position_1 position_1)
           (proj1 two_star_catalog_NoDup) two_stars_altitudes).
  rewrite two_star_positions. reflexivity.
Defined.

(** ** The whole chart, artist by artist *)

Lemma draw_stars_with_artists self ax star_positions :
  draw_stars self ax star_positions
  = with_artists ax
      (map (star_marker self)
         (filter (star_drawnb self) (map snd star_positions))).
Proof.
  unfold draw_stars. revert ax.
  induction star_positions as [|item l IH]; intros ax; simpl.
  - now rewrite with_artists_nil.
  - rewrite IH, draw_star_cases.
    destruct (star_drawnb self (snd item)); simpl; [|reflexivity].
    now rewrite add_artist_with_artists, with_artists_app.
Qed.

Lemma draw_lines_with_artists self star_positions lines ax :
  fold_left (draw_line self star_positions) lines ax
  = with_artists ax
      (flat_map (fun line => option_list (edge_artist self star_positions line))
         lines).
Proof.
  revert ax. induction lines as [|line lines IH]; intros ax; simpl.
  - now rewrite with_artists_nil.
  - rewrite IH, draw_line_cases.
    destruct (edge_artist self star_positions line); simpl; [|reflexivity].
    now rewrite add_artist_with_artists, with_artists_app.
Qed.

Lemma draw_constellation_lines_with_artists self ax star_positions catalog :
  draw_constellation_lines self ax star_positions catalog
  = with_artists ax
      (flat_map (fun line => option_list (edge_artist self star_positions line))
         (all_lines catalog)).
Proof.
  unfold draw_constellation_lines, all_lines.
  generalize (get_all_constellations catalog) as names. intros names.
  revert ax. induction names as [|name names IH]; intros ax; simpl.
  - now rewrite with_artists_nil.
  - now rewrite IH, draw_lines_with_artists, with_artists_app, flat_map_app.
Qed.

Lemma add_title_and_info_with_artists
    {Instant : Type} (strftime : Instant -> string -> string)
    (format_2f : R -> string) self ax latitude longitude
    (time : Instant) city_name :
  add_title_and_info strftime format_2f self ax latitude longitude time
    city_name
  = with_artists ax
      (title_artists strftime format_2f self latitude longitude time city_name).
Proof.
  unfold add_title_and_info, title_artists, title_prefix.
  rewrite !add_artist_with_artists, !with_artists_app. cbn [app].
  rewrite !string_app_assoc. reflexivity.
Qed.

Lemma render_sky_unfolded
    {Instant : Type}
    (transform_to_altaz : R -> R -> R -> Instant -> R -> R -> R * R)
    (strftime : Instant -> string -> string) (format_2f : R -> string)
    self clock loaded latitude longitude time city_name save_path :
  render_sky transform_to_altaz strftime format_2f self clock loaded
    latitude longitude time city_name save_path
  = (fst (create_figure self),
     with_artists (snd (create_figure self))
       (grid_artists self
        ++ map (star_marker self)
             (filter (star_drawnb self)
                (map snd
                   (calculate_star_positions transform_to_altaz
                      (SkyCalculator_init latitude longitude None) clock
                      (get_all_stars loaded)
                      (Some (time_or_now time clock)))))
        ++ flat_map
             (fun line =>
                option_list
                  (edge_artist self
                     (calculate_star_positions transform_to_altaz
                        (SkyCalculator_init latitude longitude None) clock
                        (get_all_stars loaded)
                        (Some (time_or_now time clock)))
                     line))
             (all_lines loaded)
        ++ title_artists strftime format_2f self latitude longitude
             (time_or_now time clock) city_name),
     save_request self save_path).
Proof.
  unfold render_sky.
  cbn [create_figure fst snd].
  rewrite add_title_and_info_with_artists,
    draw_constellation_lines_with_artists, draw_stars_with_artists,
    draw_horizon_and_grid_with_artists.
  rewrite !with_artists_app, <- ?app_assoc.
  f_equal. unfold save_request.
  destruct save_path as [[|c path]|]; reflexivity.
Qed.

(** X9: paint order of [render_sky]: on axes limited to [-2, 2] in both
    directions it puts the seven grid artists, then the star markers, then
    the constellation segments, then the title, the zenith mark and the
    zenith label, and nothing else; it asks for the figure to be saved
    exactly when the save path is a non-empty string. *)
Theorem render_sky_paint_order :
  forall (Instant : Type)
         (transform_to_altaz : R -> R -> R -> Instant -> R -> R -> R * R)
         (strftime : Instant -> string -> string) (format_2f : R -> string)
         (self : SkyRenderer) (clock : Instant) (loaded : StarCatalog)
         (latitude longitude : R) (time : option Instant)
         (city_name save_path : option string),
    artists
      (snd (fst (render_sky transform_to_altaz strftime format_2f self clock
                   loaded latitude longitude time city_name save_path)))
    = grid_artists self
      ++ map (star_marker self)
           (filter (star_drawnb self)
              (map snd
                 (calculate_star_positions transform_to_altaz
                    (SkyCalculator_init latitude longitude None) clock
                    (get_all_stars loaded)
                    (Some (time_or_now time clock)))))
      ++ flat_map
           (fun line =>
              option_list
                (edge_artist self
                   (calculate_star_positions transform_to_altaz
                      (SkyCalculator_init latitude longitude None) clock
                      (get_all_stars loaded)
                      (Some (time_or_now time clock)))
                   line))
           (all_lines loaded)
      ++ title_artists strftime format_2f self latitude longitude
           (time_or_now time clock) city_name
    /\ xlim (snd (fst (render_sky transform_to_altaz strftime format_2f self
                         clock loaded latitude longitude time city_name
                         save_path))) = (-2, 2)
    /\ ylim (snd (fst (render_sky transform_to_altaz strftime format_2f self
                         clock loaded latitude longitude time city_name
                         save_path))) = (-2, 2)
    /\ snd (render_sky transform_to_altaz strftime format_2f self clock loaded
              latitude longitude time city_name save_path)
       = save_request self save_path.
Proof.
  intros. rewrite render_sky_unfolded. repeat split.
Qed.

(** ** Same inputs, same chart *)

Lemma star_position_content
    {Instant : Type}
    (transform_to_altaz : R -> R -> R -> Instant -> R -> R -> R * R)
    calc clock1 clock2 t (item1 item2 : Z * StarData) :
  star_content item1 = star_content item2 ->
  star_position transform_to_altaz calc clock1 t (snd item1)
  = star_position transform_to_altaz calc clock2 t (snd item2).
Proof.
  unfold star_content. intros [= _ Hra Hdec Hmag].
  unfold star_position, celestial_to_horizontal. cbn [time_or_now].
  now rewrite Hra, Hdec, Hmag.
Qed.

(** The positions depend on the star dictionary through the contents of its
    items alone, and on the clock through the instant used alone. *)
Lemma calculate_star_positions_content
    {Instant : Type}
    (transform_to_altaz : R -> R -> R -> Instant -> R -> R -> R * R)
    calc clock1 clock2 stars1 stars2 time1 time2 :
  time_or_now time1 clock1 = time_or_now time2 clock2 ->
  map star_content stars1 = map star_content stars2 ->
  calculate_star_positions transform_to_altaz calc clock1 stars1 time1
  = calculate_star_positions transform_to_altaz calc clock2 stars2 time2.
Proof.
  intros Htime. unfold calculate_star_positions. rewrite Htime.
  generalize (@nil (Z * StarPosition)) as star_positions.
  revert stars2.
  induction stars1 as [|item1 stars1 IH]; intros [|item2 stars2] acc Hmap;
    try discriminate; [reflexivity|].
  cbn [map] in Hmap.
  assert (Hitem : star_content item1 = star_content item2)
    by exact (f_equal (hd (star_content item1)) Hmap).
  assert (Hrest : map star_content stars1 = map star_content stars2)
    by exact (f_equal (@tl _) Hmap).
  cbn [fold_left].
  destruct item1 as [id1 sd1], item2 as [id2 sd2].
  pose proof (star_position_content transform_to_altaz calc clock1 clock2
                (time_or_now time2 clock2) (id1, sd1) (id2, sd2) Hitem) as Hpos.
  cbn [snd] in Hpos. rewrite Hpos.
  assert (Hid : id1 = id2)
    by exact (f_equal (fun c => fst (fst (fst c))) Hitem).
  rewrite Hid. now apply IH.
Qed.

(** C8: two runs of [render_sky] that are given the same catalog contents
    (the stars' ids, coordinates and magnitudes in order, and the lines), the
    same location, the same instant and the same city name put the same
    artists, in the same order, on the same axes.  Nothing else enters:
    not the clock reading of either run, not the way either catalog came to
    hold its contents, not the renderer object used (any one the constructor
    builds), not the save path. *)
Theorem render_sky_same_inputs_same_chart :
  forall (Instant : Type)
         (transform_to_altaz : R -> R -> R -> Instant -> R -> R -> R * R)
         (strftime : Instant -> string -> string) (format_2f : R -> string)
         (width1 height1 dpi1 width2 height2 dpi2 : R)
         (clock1 clock2 : Instant) (loaded1 loaded2 : StarCatalog)
         (latitude longitude : R) (time1 time2 : option Instant)
         (city_name save_path1 save_path2 : option string),
    map star_content (stars loaded1) = map star_content (stars loaded2) ->
    all_lines loaded1 = all_lines loaded2 ->
    time_or_now time1 clock1 = time_or_now time2 clock2 ->
    snd (fst (render_sky transform_to_altaz strftime format_2f
                (SkyRenderer_init width1 height1 dpi1) clock1 loaded1
                latitude longitude time1 city_name save_path1))
    = snd (fst (render_sky transform_to_altaz strftime format_2f
                  (SkyRenderer_init width2 height2 dpi2) clock2 loaded2
                  latitude longitude time2 city_name save_path2)).
Proof.
  intros Instant T strftime fmt w1 h1 d1 w2 h2 d2 clock1 clock2
    loaded1 loaded2 lat lon time1 time2 city sp1 sp2 Hstars Hlines Htime.
  rewrite !render_sky_unfolded. cbn [fst snd].
  unfold get_all_stars.
  rewrite (calculate_star_positions_content T
             (SkyCalculator_init lat lon None) clock1 clock2
             (stars loaded1) (stars loaded2)
             (Some (time_or_now time1 clock1))
             (Some (time_or_now time2 clock2)) Htime Hstars).
  rewrite Hlines, Htime. reflexivity.
Qed.

(** The theorem at two runs that differ in everything it leaves free: two
    catalog objects with the same contents, different clock readings (the
    second run takes its instant from the clock), renderers of different
    sizes, the second run saving its figure. *)
Lemma render_sky_same_inputs_same_chart_witness :
  snd (fst (render_sky polar_altaz (fun (t : nat) (fmt : string) => fmt)
              (fun _ : R => "0.00"%string) (SkyRenderer_init 12 12 100) 0%nat
              two_star_catalog 45 10 (Some 7%nat) (Some "Here"%string) None))
  = snd (fst (render_sky polar_altaz (fun (t : nat) (fmt : string) => fmt)
                (fun _ : R => "0.00"%string) (SkyRenderer_init 8 6 72) 7%nat
                two_star_catalog_again 45 10 None (Some "Here"%string)
                (Some "sky.png"%string))).
Proof.
  apply render_sky_same_inputs_same_chart; reflexivity.
Defined.

Lemma no_visible_no_markers self (ps : list StarPosition) :
  (forall p, In p ps -> visible p = false) ->
  filter (star_drawnb self) ps = [].
Proof.
  intros H. induction ps as [|p ps IH]; [reflexivity|]. simpl.
  unfold star_drawnb at 1. rewrite (H p) by now left. simpl.
  apply IH. intros q Hq. apply H. now right.
Qed.

Lemma no_visible_no_segments self star_positions (lines : list (Z * Z)) :
  (forall p, In p (map snd star_positions) -> visible p = false) ->
  flat_map (fun line => option_list (edge_artist self star_positions line)) lines
  = [].
Proof.
  intros H. induction lines as [|[id1 id2] lines IH]; [reflexivity|].
  simpl. rewrite IH, app_nil_r.
  unfold edge_artist. cbn [fst snd].
  destruct (dict_get Z.eqb star_positions id1) as [p1|] eqn:E1; [|reflexivity].
  destruct (dict_get Z.eqb star_positions id2) as [p2|]; [|reflexivity].
  rewrite (H p1); [reflexivity|].
  apply (dict_get_Some_In Z.eqb Zeqb_spec) in E1.
  apply in_map_iff. now exists (id1, p1).
Qed.

(** X10: a catalog with no star above the horizon (an empty one included) is no
    error: the chart then holds the seven grid artists and the three title
    artists, and nothing else. *)
Theorem render_sky_nothing_visible :
  forall (Instant : Type)
         (transform_to_altaz : R -> R -> R -> Instant -> R -> R -> R * R)
         (strftime : Instant -> string -> string) (format_2f : R -> string)
         (self : SkyRenderer) (clock : Instant) (loaded : StarCatalog)
         (latitude longitude : R) (time : option Instant)
         (city_name save_path : option string),
    NoDup (keys (stars loaded)) ->
    (forall star_id star_data,
        In (star_id, star_data) (stars loaded) ->
        fst (transform_to_altaz latitude longitude 0 (time_or_now time clock)
               (sd_ra star_data) (sd_dec star_data)) <= 0) ->
    artists
      (snd (fst (render_sky transform_to_altaz strftime format_2f self clock
                   loaded latitude longitude time city_name save_path)))
    = grid_artists self
      ++ title_artists strftime format_2f self latitude longitude
           (time_or_now time clock) city_name.
Proof.
  intros Instant T strftime fmt self clock loaded lat lon time city sp Hnd Hlow.
  rewrite render_sky_unfolded. cbn [fst snd with_artists artists create_figure app].
  assert (Hnone : forall p,
            In p (map snd
                    (calculate_star_positions T (SkyCalculator_init lat lon None)
                       clock (get_all_stars loaded)
                       (Some (time_or_now time clock)))) ->
            visible p = false).
  { unfold get_all_stars.
    rewrite calculate_star_positions_map by exact Hnd.
    intros p Hp. rewrite map_map in Hp. apply in_map_iff in Hp.
    destruct Hp as [[star_id sd] [<- Hin]]. cbn [snd time_or_now].
    destruct (star_position_fields T (SkyCalculator_init lat lon None) clock
                (time_or_now time clock) sd) as (_ & _ & Haz & _ & Hvis).
    rewrite Hvis. apply Rgtb_false.
    pose proof (Hlow star_id sd Hin) as Hle.
    change (celestial_to_horizontal T (SkyCalculator_init lat lon None) clock
              (sd_ra sd) (sd_dec sd) (Some (time_or_now time clock)))
      with (T lat lon 0 (time_or_now time clock) (sd_ra sd) (sd_dec sd)) in Haz.
    rewrite <- Haz in Hle. exact Hle. }
  rewrite (no_visible_no_markers self _ Hnone).
  rewrite (no_visible_no_segments self _ _ Hnone).
  reflexivity.
Qed.

Lemma render_sky_nothing_visible_witness :
  artists
    (snd (fst (render_sky polar_altaz (fun (t : nat) (fmt : string) => fmt)
                 (fun _ : R => "0.00"%string) default_renderer 0%nat
                 sunk_catalog 90 0 None None None)))
  = grid_artists default_renderer
    ++ title_artists (fun (t : nat) (fmt : string) => fmt)
         (fun _ : R => "0.00"%string) default_renderer 90 0 0%nat None.
Proof.
  apply (render_sky_nothing_visible nat polar_altaz).
  - unfold keys, sunk_catalog. cbn [map fst stars]. nodup_keys.
  - intros star_id sd [E|[]]. injection E as _ <-. simpl. lra.
Defined.

(** ** Markers stay inside the plotted square *)

(** X11: every star marker [draw_stars] adds lies within the limits that
    [create_figure] gives the axes (from -2 to 2 in x and in y), whatever the
    altitudes and azimuths of the positions are. *)
Theorem draw_stars_markers_within_limits :
  forall (self : SkyRenderer) (ax : Axes)
         (star_positions : list (Z * StarPosition)),
    exists added : list Artist,
      artists (draw_stars self ax star_positions) = artists ax ++ added
      /\ Forall
           (fun a =>
              exists x y s,
                a = ScatterPoint x y s (stars_color (colors self)) "*" (9 / 10)
                      (Some "none"%string)
                /\ fst (xlim (snd (create_figure self))) <= x
                   <= snd (xlim (snd (create_figure self)))
                /\ fst (ylim (snd (create_figure self))) <= y
                   <= snd (ylim (snd (create_figure self))))
           added.
Proof.
  intros self ax ps. eexists. split; [apply draw_stars_artists|].
  apply Forall_forall. intros a Ha.
  apply in_map_iff in Ha. destruct Ha as [p [<- Hp]].
  apply filter_In in Hp. destruct Hp as [_ Hp].
  apply star_drawnb_true in Hp. destruct Hp as [_ Hbound].
  unfold star_marker.
  set (xy := project_star_position self (altitude p) (azimuth p)) in *.
  exists (fst xy), (snd xy). eexists. split; [reflexivity|].
  unfold norm2 in Hbound. cbn [create_figure snd fst xlim ylim].
  split; split; nra.
Qed.

(** ** The visibility test and the visible flag *)

(** X12: the flag stored for a star of the catalog is what [is_visible] answers
    for the star's coordinates at the same instant with the default
    minimum altitude 0. *)
Theorem visible_flag_is_is_visible :
  forall (Instant : Type)
         (transform_to_altaz : R -> R -> R -> Instant -> R -> R -> R * R)
         (self : SkyCalculator) (clock : Instant)
         (stars : list (Z * StarData)) (time : option Instant)
         (star_id : Z) (star_data : StarData),
    NoDup (keys stars) ->
    dict_get Z.eqb stars star_id = Some star_data ->
    exists p : StarPosition,
      dict_get Z.eqb
        (calculate_star_positions transform_to_altaz self clock stars time)
        star_id = Some p
      /\ visible p
         = is_visible transform_to_altaz self clock (sd_ra star_data)
             (sd_dec star_data) (Some (time_or_now time clock)) 0.
Proof.
  intros Instant T self clock stars time star_id sd Hnd Hget.
  rewrite (dict_get_positions T self clock stars time star_id Hnd), Hget.
  eexists. split; [reflexivity|].
  unfold star_position, is_visible.
  now destruct (celestial_to_horizontal T self clock (sd_ra sd) (sd_dec sd)
                  (Some (time_or_now time clock))).
Qed.

Lemma visible_flag_is_is_visible_witness :
  exists p : StarPosition,
    dict_get Z.eqb
      (calculate_star_positions polar_altaz polar_calc 0%nat two_stars None)
      1%Z = Some p
    /\ visible p
       = is_visible polar_altaz polar_calc 0%nat 0 10
           (Some (time_or_now None 0%nat)) 0.
Proof.
  apply (visible_flag_is_is_visible nat polar_altaz polar_calc 0%nat two_stars
           None 1%Z (mkStarData 0 10 (Some 2) (Some 1%Z))
           (proj1 two_star_catalog_NoDup)).
  reflexivity.
Defined.

(** ** Building the catalog *)

Lemma find_append {A} (f : A -> bool) (l1 l2 : list A) :
  find f (l1 ++ l2)
  = match find f l1 with Some x => Some x | None => find f l2 end.
Proof.
  induction l1 as [|x l1 IH]; simpl; [reflexivity|].
  now destruct (f x).
Qed.

Section DictUpdates.
Context {K : Type} (eqb : K -> K -> bool).
Hypothesis eqb_spec : forall a b, reflect (a = b) (eqb a b).

Lemma keys_dict_set_present {V} (d : list (K * V)) k v :
  In k (keys d) -> keys (dict_set eqb d k v) = keys d.
Proof.
  induction d as [|[k' v'] d IH]; simpl; [tauto|].
  intros Hin. destruct (eqb_spec k k') as [->|Hne]; [reflexivity|].
  simpl. f_equal. apply IH. destruct Hin as [E|I]; [congruence | exact I].
Qed.

(** Assignment keeps the keys of a dictionary distinct. *)
Lemma dict_set_NoDup {V} (d : list (K * V)) k v :
  NoDup (keys d) -> NoDup (keys (dict_set eqb d k v)).
Proof.
  intros Hnd.
  destruct (in_dec (fun a b => reflect_dec _ _ (eqb_spec a b)) k (keys d))
    as [Hin|Hnotin].
  - now rewrite keys_dict_set_present.
  - rewrite (dict_set_fresh eqb eqb_spec d k v Hnotin).
    unfold keys. rewrite map_app. simpl.
    apply NoDup_app_remove_l with (l := []). simpl.
    apply NoDup_rev in Hnd. rewrite <- (rev_involutive (map fst d ++ [k])).
    apply NoDup_rev. rewrite rev_app_distr. simpl.
    constructor; [|exact Hnd].
    intros Hin. apply Hnotin. now apply in_rev.
Qed.

(** Lookup after assignment. *)
Lemma dict_get_set {V} (d : list (K * V)) k v k' :
  dict_get eqb (dict_set eqb d k v) k'
  = if eqb k' k then Some v else dict_get eqb d k'.
Proof.
  induction d as [|[k0 v0] d IH]; simpl.
  - reflexivity.
  - destruct (eqb_spec k k0) as [->|Hne]; simpl.
    + now destruct (eqb k' k0).
    + rewrite IH.
      destruct (eqb_spec k' k0) as [E1|Hne'];
        destruct (eqb_spec k' k) as [E2|Hne'']; congruence.
Qed.

(** Every item of a dictionary after an assignment is an item from before
    or carries the assigned value under an equal key. *)
Lemma dict_set_items {V} (P : K -> V -> Prop) (d : list (K * V)) k v :
  (forall k0 v0, In (k0, v0) d -> P k0 v0) -> P k v ->
  forall k0 v0, In (k0, v0) (dict_set eqb d k v) -> P k0 v0.
Proof.
  intros Hd Hkv. induction d as [|[k1 v1] d IH]; simpl.
  - intros k0 v0 [[= <- <-]|[]]. exact Hkv.
  - destruct (eqb_spec k k1) as [->|Hne]; intros k0 v0 [E|I].
    + injection E as <- <-. exact Hkv.
    + apply Hd. now right.
    + injection E as <- <-. apply Hd. now left.
    + apply IH; [|exact I]. intros k2 v2 H2. apply Hd. now right.
Qed.

(** A loop of assignments: the last row stored under a key is the one a
    lookup finds. *)
Lemma dict_get_fold_set {A V} (key : A -> K) (val : A -> V)
    (rows : list A) (d : list (K * V)) k :
  dict_get eqb
    (fold_left (fun d row => dict_set eqb d (key row) (val row)) rows d) k
  = match find (fun row => eqb k (key row)) (rev rows) with
    | Some row => Some (val row)
    | None => dict_get eqb d k
    end.
Proof.
  revert d. induction rows as [|row rows IH]; intros d; simpl.
  - reflexivity.
  - rewrite IH, find_append.
    destruct (find (fun row => eqb k (key row)) (rev rows)); [reflexivity|].
    simpl. rewrite dict_get_set. now destruct (eqb k (key row)).
Qed.

Lemma fold_set_NoDup {A V} (key : A -> K) (val : A -> V)
    (rows : list A) (d : list (K * V)) :
  NoDup (keys d) ->
  NoDup (keys (fold_left (fun d row => dict_set eqb d (key row) (val row))
                 rows d)).
Proof.
  revert d. induction rows as [|row rows IH]; intros d Hnd; simpl.
  - exact Hnd.
  - apply IH. now apply dict_set_NoDup.
Qed.

Lemma fold_set_items {A V} (P : K -> V -> Prop) (key : A -> K) (val : A -> V)
    (rows : list A) (d : list (K * V)) :
  (forall k0 v0, In (k0, v0) d -> P k0 v0) ->
  (forall row, In row rows -> P (key row) (val row)) ->
  forall k0 v0,
    In (k0, v0)
      (fold_left (fun d row => dict_set eqb d (key row) (val row)) rows d) ->
    P k0 v0.
Proof.
  revert d. induction rows as [|row rows IH]; intros d Hd Hrows; simpl.
  - exact Hd.
  - apply IH.
    + apply dict_set_items; [exact Hd | apply Hrows; now left].
    + intros r Hr. apply Hrows. now right.
Qed.
End DictUpdates.

Lemma Rltb_true a b : Rltb a b = true <-> a < b.
Proof. unfold Rltb. destruct (Rlt_dec a b); split; (congruence || tauto). Qed.

Lemma has_column_In columns label :
  has_column columns label = true <-> In label columns.
Proof.
  unfold has_column. rewrite existsb_exists. split.
  - intros [c [Hin Heq]]. apply String.eqb_eq in Heq. now subst.
  - intros Hin. exists label. split; [exact Hin | apply String.eqb_refl].
Qed.

(** The loop in closed form: with the four labels among the columns every
    row is stored; otherwise the first row raises and nothing is stored. *)
Lemma store_rows_cases columns rows stars :
  store_rows columns rows stars
  = if has_column columns "hip" && has_column columns "ra_degrees"
       && has_column columns "dec_degrees" && has_column columns "magnitude"
    then (fold_left
            (fun stars star_data =>
               dict_set Z.eqb stars (hip star_data) (star_of_row star_data))
            rows stars, false)
    else (stars, match rows with [] => false | _ :: _ => true end).
Proof.
  destruct (has_column columns "hip") eqn:Hh,
           (has_column columns "ra_degrees") eqn:Hr,
           (has_column columns "dec_degrees") eqn:Hd,
           (has_column columns "magnitude") eqn:Hm;
    cbn [andb];
    try (destruct rows as [|row rows]; [reflexivity|];
         cbn [store_rows]; unfold column_value;
         rewrite ?Hh, ?Hr, ?Hd, ?Hm; reflexivity).
  revert stars. induction rows as [|row rows IH]; intros stars.
  - reflexivity.
  - cbn [store_rows fold_left]. unfold column_value.
    rewrite Hh, Hr, Hd, Hm. apply IH.
Qed.

Lemma create_sample_stars_fold stars :
  create_sample_stars stars
  = fold_left
      (fun stars item => dict_set Z.eqb stars (fst item) (sample_record item))
      sample_stars stars.
Proof.
  unfold create_sample_stars. generalize sample_stars as table.
  intros table. revert stars.
  induction table as [|[hip_id data] table IH]; intros stars;
    [reflexivity | apply IH].
Qed.

Lemma sample_stars_magnitudes item :
  In item sample_stars ->
  exists m, sd_magnitude (snd item) = Some m /\ m < 6.
Proof.
  unfold sample_stars. intros Hin.
  repeat (destruct Hin as [<-|Hin];
          [eexists; split; [reflexivity | simpl; lra]|]).
  destruct Hin.
Qed.

Lemma create_sample_stars_well_formed stars :
  NoDup (keys stars) ->
  (forall hip_id data, In (hip_id, data) stars -> catalog_record hip_id data) ->
  NoDup (keys (create_sample_stars stars))
  /\ (forall hip_id data,
        In (hip_id, data) (create_sample_stars stars) ->
        catalog_record hip_id data).
Proof.
  intros Hnd Hitems. rewrite create_sample_stars_fold. split.
  - now apply (fold_set_NoDup Z.eqb Zeqb_spec).
  - apply (fold_set_items Z.eqb Zeqb_spec catalog_record); [exact Hitems|].
    intros item Hin. split; [reflexivity|].
    now apply sample_stars_magnitudes.
Qed.

Lemma bright_rows_well_formed rows stars :
  NoDup (keys stars) ->
  (forall hip_id data, In (hip_id, data) stars -> catalog_record hip_id data) ->
  NoDup (keys (fold_left
                 (fun stars star_data =>
                    dict_set Z.eqb stars (hip star_data) (star_of_row star_data))
                 (filter (fun row => Rltb (row_magnitude row) 6) rows) stars))
  /\ (forall hip_id data,
        In (hip_id, data)
          (fold_left
             (fun stars star_data =>
                dict_set Z.eqb stars (hip star_data) (star_of_row star_data))
             (filter (fun row => Rltb (row_magnitude row) 6) rows) stars) ->
        catalog_record hip_id data).
Proof.
  intros Hnd Hitems. split.
  - now apply (fold_set_NoDup Z.eqb Zeqb_spec).
  - apply (fold_set_items Z.eqb Zeqb_spec catalog_record); [exact Hitems|].
    intros row Hrow. apply filter_In in Hrow. destruct Hrow as [_ Hb].
    apply Rltb_true in Hb.
    split; [reflexivity|]. exists (row_magnitude row). now split.
Qed.

Lemma load_hipparcos_catalog_well_formed stars download :
  NoDup (keys stars) ->
  (forall hip_id data, In (hip_id, data) stars -> catalog_record hip_id data) ->
  NoDup (keys (load_hipparcos_catalog stars download))
  /\ (forall hip_id data,
        In (hip_id, data) (load_hipparcos_catalog stars download) ->
        catalog_record hip_id data).
Proof.
  intros Hnd Hitems. unfold load_hipparcos_catalog.
  destruct download as [df|]; [|now apply create_sample_stars_well_formed].
  unfold column_value.
  destruct (has_column (df_columns df) "magnitude");
    [|now apply create_sample_stars_well_formed].
  rewrite store_rows_cases.
  destruct (_ && _ && _ && _).
  - now apply bright_rows_well_formed.
  - destruct (filter _ (df_rows df)).
    + now split.
    + now apply create_sample_stars_well_formed.
Qed.

Lemma constellation_names_NoDup : NoDup (keys load_constellation_data).
Proof.
  unfold keys, load_constellation_data. cbn [map fst]. nodup_keys.
Qed.

(** X13: whatever the download yields (a failure, a dataframe with any
    columns and any rows, repeated ids included), the catalog that
    [StarCatalog()] builds is well formed: star ids and constellation names
    are distinct keys, and every star record carries its key as ['hip_id']
    and a magnitude, which is below 6.  So the default magnitude of
    [calculate_star_positions] is never needed for it. *)
Theorem StarCatalog_init_well_formed :
  forall download : option DataFrame,
    NoDup (keys (stars (StarCatalog_init download)))
    /\ NoDup (keys (constellations (StarCatalog_init download)))
    /\ (forall hip_id data,
          In (hip_id, data) (stars (StarCatalog_init download)) ->
          sd_hip_id data = Some hip_id
          /\ exists m, sd_magnitude data = Some m /\ m < 6).
Proof.
  intros download.
  destruct (load_hipparcos_catalog_well_formed [] download) as [Hnd Hitems].
  - constructor.
  - intros hip_id data [].
  - split; [exact Hnd|]. split; [apply constellation_names_NoDup|].
    exact Hitems.
Qed.

Lemma find_rev_filter {A} (p q : A -> bool) (l : list A) :
  find p (rev (filter q l)) = find (fun x => p x && q x) (rev l).
Proof.
  induction l as [|x l IH]; simpl; [reflexivity|].
  rewrite find_append. destruct (q x) eqn:Q; simpl.
  - rewrite find_append, IH.
    destruct (find (fun x => p x && q x) (rev l)); [reflexivity|].
    simpl. rewrite Q. now rewrite andb_true_r.
  - rewrite IH.
    destruct (find (fun x => p x && q x) (rev l)); [reflexivity|].
    simpl. rewrite Q. now rewrite andb_false_r.
Qed.

(** When a frame has the ["magnitude"] column and a bright row but lacks one
    of the other three labels, the first bright row raises and the catalog
    is the sample stars. *)
Lemma load_falls_back stars df :
  has_column (df_columns df) "magnitude" = true ->
  has_column (df_columns df) "hip" && has_column (df_columns df) "ra_degrees"
  && has_column (df_columns df) "dec_degrees" = false ->
  filter (fun row => Rltb (row_magnitude row) 6) (df_rows df) <> [] ->
  load_hipparcos_catalog stars (Some df) = create_sample_stars stars.
Proof.
  intros Hm Hmissing Hbright. unfold load_hipparcos_catalog, column_value.
  rewrite Hm, store_rows_cases, Hmissing. cbn [andb].
  destruct (filter _ (df_rows df)); [now elim Hbright | reflexivity].
Qed.

Lemma In_has_column_false columns label :
  ~ In label columns -> has_column columns label = false.
Proof.
  intros Hnot. destruct (has_column columns label) eqn:E; [|reflexivity].
  apply has_column_In in E. now elim Hnot.
Qed.

(** X14: what the catalog holds after [StarCatalog()].  The sample stars
    alone: when the download raises, when the frame has no ["magnitude"]
    column, and when it has a row brighter than 6 but not all of the labels
    ["hip"], ["ra_degrees"] and ["dec_degrees"] as columns (a frame indexed by
    the Hipparcos number is such a frame: its rows are never stored).  No
    star at all: when the frame has the ["magnitude"] column and no row
    brighter than 6.  And when the four labels are columns, the star found
    under an id is the record of the last row with this id and a magnitude
    below 6, no star being found when there is no such row. *)
Theorem StarCatalog_init_outcomes :
  forall df : DataFrame,
    stars (StarCatalog_init None) = create_sample_stars []
    /\ (~ In "magnitude"%string (df_columns df) ->
        stars (StarCatalog_init (Some df)) = create_sample_stars [])
    /\ (In "magnitude"%string (df_columns df) ->
        filter (fun row => Rltb (row_magnitude row) 6) (df_rows df) <> [] ->
        ~ (In "hip"%string (df_columns df)
           /\ In "ra_degrees"%string (df_columns df)
           /\ In "dec_degrees"%string (df_columns df)) ->
        stars (StarCatalog_init (Some df)) = create_sample_stars [])
    /\ (In "magnitude"%string (df_columns df) ->
        filter (fun row => Rltb (row_magnitude row) 6) (df_rows df) = [] ->
        stars (StarCatalog_init (Some df)) = [])
    /\ (In "magnitude"%string (df_columns df) ->
        In "hip"%string (df_columns df) ->
        In "ra_degrees"%string (df_columns df) ->
        In "dec_degrees"%string (df_columns df) ->
        forall hip_id : Z,
          get_star (StarCatalog_init (Some df)) hip_id
          = option_map star_of_row
              (find (fun row =>
                       Z.eqb hip_id (hip row) && Rltb (row_magnitude row) 6)
                 (rev (df_rows df)))).
Proof.
  intros df. cbn [StarCatalog_init stars].
  split; [reflexivity|]. split; [|split; [|split]].
  - intros Hnot. unfold load_hipparcos_catalog, column_value.
    now rewrite (In_has_column_false _ _ Hnot).
  - intros Hm Hbright Hmissing.
    apply load_falls_back; [now apply has_column_In | | exact Hbright].
    destruct (has_column (df_columns df) "hip") eqn:Hh; [|reflexivity].
    destruct (has_column (df_columns df) "ra_degrees") eqn:Hr; [|reflexivity].
    destruct (has_column (df_columns df) "dec_degrees") eqn:Hd; [|reflexivity].
    exfalso. apply Hmissing. now rewrite <- !has_column_In.
  - intros Hm Hbright. apply has_column_In in Hm.
    unfold load_hipparcos_catalog, column_value.
    rewrite Hm, store_rows_cases, Hbright.
    now destruct (_ && _ && _ && _).
  - intros Hm Hh Hr Hd hip_id.
    apply has_column_In in Hm, Hh, Hr, Hd.
    unfold get_star. cbn [StarCatalog_init stars].
    unfold load_hipparcos_catalog, column_value.
    rewrite Hm, store_rows_cases, Hh, Hr, Hd, Hm. cbn [andb].
    rewrite (dict_get_fold_set Z.eqb Zeqb_spec hip star_of_row).
    rewrite find_rev_filter.
    now destruct (find _ (rev (df_rows df))).
Qed.

(** A frame indexed by the Hipparcos number, with a row brighter than 6:
    reading ["hip"] raises at the first bright row and the catalog is the
    one of a failed download. *)
Lemma skyfield_frame_falls_back :
  stars (StarCatalog_init (Some skyfield_frame)) = stars (StarCatalog_init None).
Proof.
  cbn [StarCatalog_init stars].
  apply load_falls_back; [reflexivity | reflexivity |].
  cbn [skyfield_frame df_rows filter row_magnitude].
  rewrite (proj2 (Rltb_true (- (146 / 100)) 6)) by lra. discriminate.
Qed.

(** X15: looking up what is not there raises nothing: [get_star] answers [None]
    for an id that is no key, and [get_constellation_lines] answers the empty
    list for a name that is no key and for a constellation without
    ['lines']; for a constellation of the catalog it answers its lines. *)
Theorem catalog_lookups_of_missing_keys :
  forall (catalog : StarCatalog) (hip_id : Z) (name : string),
    (get_star catalog hip_id = None <-> ~ In hip_id (keys (stars catalog)))
    /\ (~ In name (keys (constellations catalog)) ->
        get_constellation_lines catalog name = [])
    /\ (forall c, NoDup (keys (constellations catalog)) ->
                  In (name, c) (constellations catalog) ->
                  get_constellation_lines catalog name
                  = match lines c with Some l => l | None => [] end).
Proof.
  intros catalog hip_id name. split; [|split].
  - apply (dict_get_None Z.eqb Zeqb_spec).
  - intros Hnot. unfold get_constellation_lines.
    now rewrite (proj2 (dict_get_None String.eqb String.eqb_spec _ name) Hnot).
  - intros c Hnd Hin. unfold get_constellation_lines.
    now rewrite (dict_get_In String.eqb String.eqb_spec _ name c Hnd Hin).
Qed.

(** ** The command line *)

Lemma or_default_nonempty s default :
  default <> EmptyString -> or_default s default <> EmptyString.
Proof.
  intros Hd. destruct s as [[|c s]|]; simpl; [exact Hd | discriminate | exact Hd].
Qed.

Lemma sample_location_names key location_data :
  dict_get String.eqb get_sample_locations key = Some location_data ->
  loc_name location_data <> EmptyString.
Proof.
  intros H. apply (dict_get_Some_In String.eqb String.eqb_spec) in H.
  unfold get_sample_locations in H.
  repeat (destruct H as [E|H]; [injection E as _ <-; discriminate|]).
  destruct H.
Qed.

Lemma detected_location_city detected message lat lon city :
  detected_location detected message = Done (lat, lon, city) ->
  city <> EmptyString.
Proof.
  unfold detected_location. destruct detected as [info|]; [|discriminate].
  intros [= _ _ <-]. now apply or_default_nonempty.
Qed.

(** The location [main] settles on always has a name. *)
Lemma main_location_named (args : Args) (detected : option LocationInfo)
    lat lon city :
  (if arg_auto_location args then
     detected_location detected
       "Error: Could not detect location automatically"
   else if truthy (arg_location args) then
     match arg_location args with
     | Some key =>
         match dict_get String.eqb get_sample_locations key with
         | Some location_data =>
             Done (Some (loc_lat location_data),
                   Some (loc_lon location_data), loc_name location_data)
         | None => Raised "KeyError"
         end
     | None => Raised "KeyError"
     end
   else
     match arg_lat args with
     | Some lat =>
         match arg_lon args with
         | None => SysExit 1 "Error: --lon is required when using --lat"
         | Some lon =>
             Done (Some lat, Some lon,
                   or_default (arg_city args) "Custom Location")
         end
     | None =>
         detected_location detected
           "Error: Could not detect location automatically"
     end) = Done (lat, lon, city) ->
  city <> EmptyString.
Proof.
  destruct (arg_auto_location args).
  - apply detected_location_city.
  - destruct (truthy (arg_location args)).
    + destruct (arg_location args) as [key|]; [|discriminate].
      destruct (dict_get String.eqb get_sample_locations key) as [loc|] eqn:E;
        [|discriminate].
      intros [= _ _ <-]. now apply (sample_location_names key).
    + destruct (arg_lat args) as [la|].
      * destruct (arg_lon args) as [lo|]; [|discriminate].
        intros [= _ _ <-]. now apply or_default_nonempty.
      * apply detected_location_city.
Qed.

Lemma main_call_Done {Instant : Type}
    (strptime : string -> string -> option Instant)
    (args : Args) (detected : option LocationInfo) (clock : Instant)
    (call : RenderCall Instant) :
  main_call strptime args detected clock = Done call ->
  arg_list_locations args = false
  /\ rc_city_name call <> EmptyString
  /\ rc_renderer call
     = SkyRenderer_init (arg_width args) (arg_height args) (arg_dpi args)
  /\ rc_save_path call = arg_output args
  /\ (if truthy (arg_time args)
      then exists time_str,
             arg_time args = Some time_str
             /\ strptime time_str "%Y-%m-%d %H:%M:%S"%string
                = Some (rc_time call)
      else rc_time call = clock).
Proof.
  unfold main_call.
  destruct (arg_list_locations args); [discriminate|].
  match goal with
  | |- match ?loc with _ => _ end = _ -> _ => destruct loc as [| | |[[la lo] city]] eqn:Eloc
  end; try discriminate.
  apply (main_location_named args detected) in Eloc.
  destruct (truthy (arg_time args)) eqn:Et.
  - destruct (arg_time args) as [time_str|]; [|discriminate Et].
    unfold parse_time.
    destruct (strptime time_str "%Y-%m-%d %H:%M:%S"%string) as [dt|] eqn:Ep;
      [|discriminate].
    destruct la as [la|]; [|discriminate].
    destruct lo as [lo|]; [|discriminate].
    intros [= <-]. cbn. repeat split; try assumption.
    exists time_str. now split.
  - destruct la as [la|]; [|discriminate].
    destruct lo as [lo|]; [|discriminate].
    intros [= <-]. cbn. repeat split; assumption.
Qed.

(** X16: whenever [main] gets to call [render_sky]: the locations were not being
    listed; the city name it passes is never empty; the renderer has the
    sizes of the command line and the save path is the output option; and the
    time is the parsed [--time] when one is given (a time that does not
    parse never reaches the renderer), the clock reading otherwise. *)
Theorem main_call_invariants :
  forall (Instant : Type) (strptime : string -> string -> option Instant)
         (args : Args) (detected : option LocationInfo) (clock : Instant)
         (call : RenderCall Instant),
    main_call strptime args detected clock = Done call ->
    arg_list_locations args = false
    /\ rc_city_name call <> EmptyString
    /\ rc_renderer call
       = SkyRenderer_init (arg_width args) (arg_height args) (arg_dpi args)
    /\ rc_save_path call = arg_output args
    /\ (if truthy (arg_time args)
        then exists time_str,
               arg_time args = Some time_str
               /\ strptime time_str "%Y-%m-%d %H:%M:%S"%string
                  = Some (rc_time call)
        else rc_time call = clock).
Proof.
  intros Instant strptime args detected clock call H.
  exact (main_call_Done strptime args detected clock call H).
Qed.

Lemma main_call_invariants_witness :
  arg_list_locations tokyo_args = false
  /\ rc_city_name tokyo_call <> EmptyString
  /\ rc_renderer tokyo_call
     = SkyRenderer_init (arg_width tokyo_args) (arg_height tokyo_args)
         (arg_dpi tokyo_args)
  /\ rc_save_path tokyo_call = arg_output tokyo_args
  /\ (if truthy (arg_time tokyo_args)
      then exists time_str,
             arg_time tokyo_args = Some time_str
             /\ (fun _ _ : string => @None nat) time_str
                  "%Y-%m-%d %H:%M:%S"%string
                = Some (rc_time tokyo_call)
      else rc_time tokyo_call = 0%nat).
Proof.
  apply (main_call_invariants nat (fun _ _ => None) tokyo_args None 0%nat
           tokyo_call).
  reflexivity.
Defined.

(** X17: whenever [main] renders a chart, the chart's title names a place: its
    second line is a non-empty name followed by the coordinates in
    parentheses.  The chart is shown on screen exactly when no save was
    requested of [render_sky]. *)
Theorem main_title_names_a_place :
  forall (Instant : Type) (strptime : string -> string -> option Instant)
         (transform_to_altaz : R -> R -> R -> Instant -> R -> R -> R * R)
         (strftime : Instant -> string -> string) (format_2f : R -> string)
         (args : Args) (detected : option LocationInfo) (clock : Instant)
         (loaded : StarCatalog)
         (result : Figure * Axes * option SaveFig) (shown : bool),
    main strptime transform_to_altaz strftime format_2f args detected clock
      loaded = Done (result, shown) ->
    (exists (city : string) (lat lon : R) (t : Instant),
        city <> EmptyString
        /\ In (TextArtist 0 (23 / 10)
                 ("Night Sky View" ++ newline
                  ++ city ++ " (" ++ "Lat: " ++ format_2f lat ++ degree_sign
                  ++ ", Lon: " ++ format_2f lon ++ degree_sign ++ ")"
                  ++ newline ++ strftime t "%Y-%m-%d %H:%M UTC")%string
                 "center" "top" "#cccccc" 14 (Some "bold"%string))
             (artists (snd (fst result))))
    /\ (shown = true <-> snd result = None).
Proof.
  intros Instant strptime T strftime fmt args detected clock loaded result shown.
  unfold main.
  destruct (main_call strptime args detected clock) as [| | |call] eqn:Ecall;
    try discriminate.
  intros [= <- <-].
  destruct (main_call_Done strptime args detected clock call Ecall)
    as (_ & Hcity & Hrenderer & Hsave & _).
  rewrite render_sky_unfolded. cbn [fst snd with_artists artists].
  split.
  - exists (rc_city_name call), (rc_latitude call), (rc_longitude call),
      (rc_time call).
    split; [exact Hcity|].
    rewrite !app_assoc. apply in_or_app. right.
    unfold title_artists. left.
    rewrite Hrenderer. cbn [SkyRenderer_init colors cardinal_text].
    f_equal. unfold title_prefix.
    destruct (rc_city_name call) as [|c city]; [now elim Hcity|].
    cbn [truthy time_or_now]. rewrite !string_app_assoc. reflexivity.
  - rewrite Hsave. unfold save_request.
    destruct (arg_output args) as [[|c path]|]; simpl;
      split; congruence.
Qed.

Lemma main_title_names_a_place_witness :
  (exists (city : string) (lat lon : R) (t : nat),
      city <> EmptyString
      /\ In (TextArtist 0 (23 / 10)
               ("Night Sky View" ++ newline
                ++ city ++ " (" ++ "Lat: " ++ "0.00" ++ degree_sign
                ++ ", Lon: " ++ "0.00" ++ degree_sign ++ ")"
                ++ newline ++ "%Y-%m-%d %H:%M UTC")%string
               "center" "top" "#cccccc" 14 (Some "bold"%string))
           (artists
              (snd (fst (render_sky polar_altaz (fun (t : nat) fmt => fmt)
                           (fun _ : R => "0.00"%string)
                           (SkyRenderer_init 12 12 100) 0%nat two_star_catalog
                           (356762 / 10000) (1396503 / 10000) (Some 0%nat)
                           (Some "Tokyo"%string) None)))))
  /\ (true = true
      <-> snd (render_sky polar_altaz (fun (t : nat) fmt => fmt)
                 (fun _ : R => "0.00"%string) (SkyRenderer_init 12 12 100)
                 0%nat two_star_catalog (356762 / 10000) (1396503 / 10000)
                 (Some 0%nat) (Some "Tokyo"%string) None) = None).
Proof.
  apply (main_title_names_a_place nat (fun _ _ => None) polar_altaz
           (fun (t : nat) fmt => fmt) (fun _ : R => "0.00"%string)
           tokyo_args None 0%nat two_star_catalog).
  reflexivity.
Defined.
